(** * Mushroom classification app (app.py): a shallow embedding

    The Streamlit script [app.py] loads [mushrooms.csv], label-encodes every
    column, splits the rows 70/30, builds one of three scikit-learn
    estimators from the sidebar widgets and reports accuracy, precision and
    recall together with the plots the user asked for.

    The embedding follows the script statement by statement.  Python values
    are a tagged union, exceptions are an error type, and the script's
    effects (reading the file, the two [st.cache] memo tables, the elements
    it renders and the library calls it makes) are threaded through a state
    and error monad over a [world].  The fitted decision function and the
    seeded row permutation of [train_test_split] belong to scikit-learn and
    NumPy; they are Section variables. *)

From Stdlib Require Import String Ascii List ZArith QArith Qround Lia Bool Arith.
From Stdlib Require Import Permutation Sorted.
Import ListNotations.

Local Close Scope Q_scope.
Local Open Scope nat_scope.
Local Open Scope string_scope.
Local Open Scope list_scope.

(** ** Python values and exceptions *)

(** The cells of a table: [read_csv] yields [str] cells for the categorical
    columns, the encoder yields integer codes. *)
Inductive value : Type :=
| VStr (s : string)
| VInt (z : Z).

Definition value_eq_dec (a b : value) : {a = b} + {a <> b}.
Proof.
  decide equality; [apply string_dec | apply Z.eq_dec].
Defined.

Definition value_eqb (a b : value) : bool :=
  if value_eq_dec a b then true else false.

Definition is_str (v : value) : bool :=
  match v with VStr _ => true | VInt _ => false end.

Definition is_int (v : value) : bool :=
  match v with VInt _ => true | VStr _ => false end.

(** The exceptions the script can meet, named as Python names them. *)
Inductive exn : Type :=
| FileNotFoundError (path : string)
| AttributeError (attr : string)
| KeyError (key : string)
| IndexError
| TypeError
| ValueError (msg : string)
| NameError (name : string)
| NotFittedError.

(** The name of the class of an exception, as Python reports it. *)
Definition exception_name (e : exn) : string :=
  match e with
  | FileNotFoundError _ => "FileNotFoundError"
  | AttributeError _ => "AttributeError"
  | KeyError _ => "KeyError"
  | IndexError => "IndexError"
  | TypeError => "TypeError"
  | ValueError _ => "ValueError"
  | NameError _ => "NameError"
  | NotFittedError => "NotFittedError"
  end.

Inductive result (A : Type) : Type :=
| Ok (a : A)
| Err (e : exn).

Arguments Ok {A} a.
Arguments Err {A} e.

Definition bindR {A B : Type} (r : result A) (k : A -> result B) : result B :=
  match r with
  | Ok a => k a
  | Err e => Err e
  end.

Notation "'try' x <- e ; k" := (bindR e (fun x => k))
  (at level 10, x name, e at level 100, k at level 200).

(** ** sklearn.preprocessing.LabelEncoder *)

(** Python's [sorted] on the distinct values of a column.  A column that
    reaches the sort is uniformly [str] or uniformly [int] (otherwise the
    encoder raises [TypeError]), where this order is Python's: code point
    order on strings, numeric order on integers. *)
Definition value_leb (a b : value) : bool :=
  match a, b with
  | VStr s, VStr t => String.leb s t
  | VInt x, VInt y => Z.leb x y
  | VInt _, VStr _ => true
  | VStr _, VInt _ => false
  end.

Fixpoint insert (v : value) (l : list value) : list value :=
  match l with
  | [] => [v]
  | x :: l' => if value_leb v x then v :: x :: l' else x :: insert v l'
  end.

Definition sorted (l : list value) : list value :=
  fold_right insert [] l.

(** [set(values)]: the distinct values. *)
Definition distinct (col : list value) : list value :=
  nodup value_eq_dec col.

Definition uniform (col : list value) : bool :=
  forallb is_str col || forallb is_int col.

(** [LabelEncoder.classes_] after [fit]: the sorted distinct values. *)
Definition classes_ (col : list value) : list value :=
  sorted (distinct col).

(** Position of [v] in [l] ([length l] when absent). *)
Fixpoint index_of (v : value) (l : list value) : nat :=
  match l with
  | [] => 0
  | x :: l' => if value_eqb v x then 0 else S (index_of v l')
  end.

(** The code of a value under the encoder fitted on [col]. *)
Definition code (col : list value) (v : value) : Z :=
  Z.of_nat (index_of v (classes_ col)).

(** [label.fit_transform(col)]: fit on the column, then map every cell to
    its position in [classes_]. *)
Definition fit_transform (col : list value) : result (list value) :=
  if uniform col
  then Ok (map (fun v => VInt (code col v)) col)
  else Err TypeError.

(** ** pandas.DataFrame *)

(** A frame is its row index (the row labels, in order) and its named
    columns, in order.  [len(df)] is the length of the index. *)
Record DataFrame : Type := mkDataFrame {
  index : list nat;
  columns : list (string * list value)
}.

(** A column taken out of a frame keeps the row labels. *)
Record Series : Type := mkSeries {
  s_index : list nat;
  s_values : list value
}.

Definition len (df : DataFrame) : nat := length (index df).

Definition column_names (df : DataFrame) : list string :=
  map fst (columns df).

Fixpoint lookup (name : string) (cols : list (string * list value))
  : option (list value) :=
  match cols with
  | [] => None
  | (n, c) :: rest => if String.eqb n name then Some c else lookup name rest
  end.

(** [df[col]] *)
Definition getitem (df : DataFrame) (col : string) : result (list value) :=
  match lookup col (columns df) with
  | Some c => Ok c
  | None => Err (KeyError col)
  end.

Fixpoint replace (name : string) (c : list value)
  (cols : list (string * list value)) : list (string * list value) :=
  match cols with
  | [] => [(name, c)]
  | (n, c0) :: rest =>
      if String.eqb n name then (name, c) :: rest
      else (n, c0) :: replace name c rest
  end.

(** [df[col] = c] *)
Definition setitem (df : DataFrame) (col : string) (c : list value)
  : DataFrame :=
  {| index := index df; columns := replace col c (columns df) |}.

(** ** load_data, lines 35-40, without its cache decorator *)

(** One pass of the loop body, line 39. *)
Definition encode_column (data : DataFrame) (col : string)
  : result DataFrame :=
  try c <- getitem data col;
  try c' <- fit_transform c;
  Ok (setitem data col c').

(** The loop of lines 38-39 over [data.columns]. *)
Definition encode_columns (data : DataFrame) : result DataFrame :=
  fold_left (fun acc col => try d <- acc; encode_column d col)
            (column_names data) (Ok data).

(** What the encoder does to one named column. *)
Definition encoded (raw enc : string * list value) : Prop :=
  fst enc = fst raw /\ fit_transform (snd raw) = Ok (snd enc).

(** ** split, lines 45-49: the pure part of train_test_split *)

(** [df.type]: attribute access to a column; pandas raises
    [AttributeError] when no column (and no attribute) has that name. *)
Definition getattr (df : DataFrame) (name : string) : result Series :=
  match lookup name (columns df) with
  | Some c => Ok {| s_index := index df; s_values := c |}
  | None => Err (AttributeError name)
  end.

(** [df.drop(columns=[name])]: [KeyError] when the column is absent. *)
Definition drop (df : DataFrame) (name : string) : result DataFrame :=
  match lookup name (columns df) with
  | Some _ =>
      Ok {| index := index df;
            columns := filter (fun nc => negb (String.eqb (fst nc) name))
                              (columns df) |}
  | None => Err (KeyError name)
  end.

(** Positional selection ([iloc]); a position past the end raises. *)
Fixpoint take {A : Type} (rows : list nat) (l : list A) : result (list A) :=
  match rows with
  | [] => Ok []
  | i :: rows' =>
      match nth_error l i with
      | Some a => try r <- take rows' l; Ok (a :: r)
      | None => Err IndexError
      end
  end.

Fixpoint take_columns (rows : list nat) (cols : list (string * list value))
  : result (list (string * list value)) :=
  match cols with
  | [] => Ok []
  | (n, c) :: rest =>
      try c' <- take rows c;
      try rest' <- take_columns rows rest;
      Ok ((n, c') :: rest')
  end.

Definition iloc (df : DataFrame) (rows : list nat) : result DataFrame :=
  try i <- take rows (index df);
  try cs <- take_columns rows (columns df);
  Ok {| index := i; columns := cs |}.

Definition iloc_series (s : Series) (rows : list nat) : result Series :=
  try i <- take rows (s_index s);
  try v <- take rows (s_values s);
  Ok {| s_index := i; s_values := v |}.

(** [ceil(0.3 * n)].  The double nearest to 0.3 lies below 3/10 by less
    than 2^-54, so for every row count a table can have the product
    rounds to [3n/10] when that is an integer and keeps its ceiling
    otherwise: the integer formula gives the value sklearn computes. *)
Definition n_test_of (n_samples : nat) : nat := (3 * n_samples + 9) / 10.

(** [_validate_shuffle_split] with [test_size=0.3], [train_size=None]. *)
Definition validate_shuffle_split (n_samples : nat) : result (nat * nat) :=
  let n_test := n_test_of n_samples in
  let n_train := n_samples - n_test in
  if Nat.eqb n_train 0
  then Err (ValueError "the resulting train set will be empty")
  else Ok (n_train, n_test).

Definition split_t : Type := (DataFrame * DataFrame * Series * Series)%type.

(** ** The estimators, lines 89, 113, 138 *)

(** An object given for the [bootstrap] keyword: scikit-learn documents a
    [bool]; the radio widget of line 131 yields a [str]. *)
Inductive pyobj : Type :=
| PyBool (b : bool)
| PyStr (s : string).

(** Python's truth value of an object ([bool(o)]). *)
Definition truth (o : pyobj) : bool :=
  match o with
  | PyBool b => b
  | PyStr s => negb (String.eqb s "")
  end.

Inductive Estimator : Type :=
| SVC (C : Q) (kernel gamma : string)
| LogisticRegression (C : Q) (max_iter : Z)
| RandomForestClassifier (n_estimators max_depth : Z) (bootstrap : pyobj)
                         (n_jobs : Z).

(** A model object: built unfit by its constructor; [fit] stores what it
    learned, here the prediction function. *)
Record py_model : Type := mkModel {
  estimator : Estimator;
  fitted : option (DataFrame -> list value)
}.

(** ** sklearn.metrics *)

Fixpoint count2 (p : value -> value -> bool) (a b : list value) : nat :=
  match a, b with
  | x :: a', y :: b' => (if p x y then 1 else 0) + count2 p a' b'
  | _, _ => 0
  end.

(** A ratio of two counts; the denominator is positive where it is used. *)
Definition ratio (a b : nat) : Q := Qmake (Z.of_nat a) (Pos.of_nat b).

(** sklearn validates its inputs before it scores: the two vectors have
    the same, positive number of samples. *)
Definition check_consistent_length (y_true y_pred : list value)
  : result unit :=
  if negb (Nat.eqb (length y_true) (length y_pred))
  then Err (ValueError "inconsistent numbers of samples")
  else if Nat.eqb (length y_true) 0
  then Err (ValueError "0 samples")
  else Ok tt.

(** [accuracy_score]: the mean of [y_true == y_pred]. *)
Definition accuracy_score (y_true y_pred : list value) : result Q :=
  try _ <- check_consistent_length y_true y_pred;
  Ok (ratio (count2 value_eqb y_true y_pred) (length y_true)).

(** The default [pos_label=1] of [precision_score] and [recall_score]. *)
Definition pos_label : value := VInt 1.

Definition is_pos (v : value) : bool := value_eqb v pos_label.

(** [_check_set_wise_labels] under the default [average='binary']: the
    targets must show at most two labels, of one type, and [pos_label]
    must be one of them when there are two.  The [labels] argument is
    then replaced by [[pos_label]]. *)
Definition check_set_wise_labels (y_true y_pred labels : list value)
  : result (list value) :=
  try _ <- check_consistent_length y_true y_pred;
  let present_labels := classes_ (y_true ++ y_pred) in
  if negb (uniform (y_true ++ y_pred))
  then Err (ValueError "Mix of label input types")
  else if Nat.ltb 2 (length present_labels)
  then Err (ValueError "Target is multiclass but average='binary'")
  else if negb (existsb is_pos present_labels)
          && Nat.leb 2 (length present_labels)
  then Err (ValueError "pos_label=1 is not a valid label")
  else Ok [pos_label].

Definition true_pos (t p : value) : bool := is_pos t && is_pos p.
Definition false_pos (t p : value) : bool := negb (is_pos t) && is_pos p.
Definition false_neg (t p : value) : bool := is_pos t && negb (is_pos p).

(** [tp / (tp + other)], and 0.0 when nothing is counted
    ([zero_division='warn']). *)
Definition prf_ratio (tp other : nat) : Q :=
  if Nat.eqb (tp + other) 0 then 0%Q else ratio tp (tp + other).

(** [precision_score(y_true, y_pred, labels=labels)]: tp / (tp + fp). *)
Definition precision_score (y_true y_pred labels : list value) : result Q :=
  try _ <- check_set_wise_labels y_true y_pred labels;
  Ok (prf_ratio (count2 true_pos y_true y_pred)
                (count2 false_pos y_true y_pred)).

(** [recall_score(y_true, y_pred, labels=labels)]: tp / (tp + fn). *)
Definition recall_score (y_true y_pred labels : list value) : result Q :=
  try _ <- check_set_wise_labels y_true y_pred labels;
  Ok (prf_ratio (count2 true_pos y_true y_pred)
                (count2 false_neg y_true y_pred)).

(** Rounding to the nearest integer, ties to the even one (NumPy).  The
    scores are kept as exact ratios here; NumPy rounds the double nearest
    to the ratio, which at a tie of the exact value can fall on the other
    side by one hundredth (23/40 is shown as 0.57).  Only the range of
    the displayed numbers is derived from this definition. *)
Definition round_half_even (x : Q) : Z :=
  let f := Qfloor x in
  match Qcompare (x - inject_Z f)%Q (Qmake 1 2) with
  | Lt => f
  | Gt => (f + 1)%Z
  | Eq => if Z.even f then f else (f + 1)%Z
  end.

(** [x.round(2)] *)
Definition round2 (x : Q) : Q :=
  Qmake (round_half_even (x * inject_Z 100)%Q) 100.

(** ** Streamlit: the widgets *)

(** What the user has set in the sidebar when the script runs: the option
    picked in each choice widget (by position in its option tuple), the
    numbers typed, the buttons pressed. *)
Record session : Type := mkSession {
  classifier_choice : nat;
  C_SVM : Q;
  kernel_choice : nat;
  gamma_choice : nat;
  C_LR : Q;
  max_iter_value : Z;
  n_estimators_value : Z;
  max_depth_value : Z;
  bootstrap_choice : nat;
  metrics_choice : list nat;
  classify_pressed : bool;
  show_raw_checked : bool
}.

(** [selectbox] and [radio] return the chosen option itself; the first
    option is the default. *)
Definition selectbox (options : list string) (choice : nat) : string :=
  nth choice options (hd "" options).

Definition radio (options : list string) (choice : nat) : string :=
  nth choice options (hd "" options).

(** [multiselect] returns the chosen options in the order of selection. *)
Definition multiselect (options : list string) (choices : list nat)
  : list string :=
  flat_map (fun i => match nth_error options i with
                     | Some o => [o]
                     | None => []
                     end) choices.

(** [number_input] and [slider] keep the value within their bounds. *)
Definition number_input (lo hi v : Z) : Z := Z.max lo (Z.min hi v).

Definition number_input_float (lo hi v : Q) : Q :=
  if Qle_bool v lo then lo else if Qle_bool hi v then hi else v.

Definition slider (lo hi v : Z) : Z := Z.max lo (Z.min hi v).

(** Line 85 (and 109, 134): the options of the metrics widget. *)
Definition metric_options : list string :=
  ["Confusion Matrix"; "ROC Curve"; "Precision-Recall Curve"].

(** Line 74: the options of the classifier widget. *)
Definition classifier_options : list string :=
  ["Support Vector Machine (SVM)"; "Logistic Regression"; "Random Forest"].

(** ** The world the script runs in *)

Inductive plot : Type :=
| ConfusionMatrixDisplay
| RocCurveDisplay
| PrecisionRecallDisplay.

(** What a run does that can be observed: the elements it renders and
    the library calls that matter to the specification. *)
Inductive event : Type :=
| Title (s : string)
| Markdown (s : string)
| Subheader (s : string)
| SidebarTitle (s : string)
| SidebarMarkdown (s : string)
| SidebarSubheader (s : string)
| Write (label : string) (x : Q)
| WriteFrame (df : DataFrame)
| Pyplot (fig : option plot)
| ReadCsv (path : string)
| Construct (est : Estimator)   (* a model object was built *)
| Fit (est : Estimator)         (* its fit returned *)
| PrecisionScore (y_true y_pred labels : list value)
| RecallScore (y_true y_pred labels : list value).

(** The local variables of [main] that [plot_metrics] closes over. *)
Record locals : Type := mkLocals {
  model : option py_model;
  x_test : option DataFrame;
  y_test : option Series
}.

Definition unbound : locals :=
  {| model := None; x_test := None; y_test := None |}.

Record world : Type := mkWorld {
  file : option DataFrame;
    (* the table read_csv parses from mushrooms.csv; None: no such file *)
  load_data_cache : list (unit * DataFrame);
  split_cache : list (DataFrame * split_t);
    (* the memo tables of the two cached functions; with persist=True
       they are kept on disk, so a process may start with entries an
       earlier process stored *)
  figure : option plot;        (* matplotlib's current figure *)
  vars : locals;
  log : list event
}.

Definition with_file (f : option DataFrame) (w : world) : world :=
  mkWorld f (load_data_cache w) (split_cache w) (figure w) (vars w) (log w).

Definition with_load_data_cache (c : list (unit * DataFrame)) (w : world)
  : world :=
  mkWorld (file w) c (split_cache w) (figure w) (vars w) (log w).

Definition with_split_cache (c : list (DataFrame * split_t)) (w : world)
  : world :=
  mkWorld (file w) (load_data_cache w) c (figure w) (vars w) (log w).

Definition with_figure (f : option plot) (w : world) : world :=
  mkWorld (file w) (load_data_cache w) (split_cache w) f (vars w) (log w).

Definition with_vars (v : locals) (w : world) : world :=
  mkWorld (file w) (load_data_cache w) (split_cache w) (figure w) v (log w).

Definition with_log (l : list event) (w : world) : world :=
  mkWorld (file w) (load_data_cache w) (split_cache w) (figure w) (vars w) l.

(** A first start: no entry in either memo table, in memory or
    persisted, and nothing rendered. *)
Definition fresh (f : option DataFrame) : world :=
  mkWorld f [] [] None unbound [].

(** Computations of the script: they read and change the world and may
    raise.  What was rendered before an exception stays rendered. *)
Definition M (A : Type) : Type := world -> result A * world.

Definition ret {A : Type} (a : A) : M A := fun w => (Ok a, w).

Definition raise {A : Type} (e : exn) : M A := fun w => (Err e, w).

Definition bind {A B : Type} (m : M A) (k : A -> M B) : M B :=
  fun w =>
    match m w with
    | (Ok a, w') => k a w'
    | (Err e, w') => (Err e, w')
    end.

Notation "'do' x <- e ; k" := (bind e (fun x => k))
  (at level 10, x name, e at level 100, k at level 200).

Definition lift {A : Type} (r : result A) : M A := fun w => (r, w).

Definition emit (e : event) : M unit :=
  fun w => (Ok tt, with_log (log w ++ [e]) w).

Definition DataFrame_eq_dec (a b : DataFrame) : {a = b} + {a <> b}.
Proof.
  decide equality.
  - apply (list_eq_dec (fun p q : string * list value => ltac:(
      decide equality;
        [apply (list_eq_dec value_eq_dec) | apply string_dec]))).
  - apply (list_eq_dec Nat.eq_dec).
Defined.

Definition DataFrame_eqb (a b : DataFrame) : bool :=
  if DataFrame_eq_dec a b then true else false.

Definition unit_eqb (a b : unit) : bool := true.

Fixpoint assoc {K V : Type} (eqb : K -> K -> bool) (k : K)
  (c : list (K * V)) : option V :=
  match c with
  | [] => None
  | (k', v) :: rest => if eqb k' k then Some v else assoc eqb k rest
  end.

(** [@st.cache(persist=True)]: look the argument up in the function's
    memo table; on a miss run the body and store what it returns.  An
    exception is not stored. *)
Definition st_cache {K V : Type} (eqb : K -> K -> bool)
  (table : world -> list (K * V))
  (store : list (K * V) -> world -> world)
  (body : K -> M V) (k : K) : M V :=
  fun w =>
    match assoc eqb k (table w) with
    | Some v => (Ok v, w)
    | None =>
        match body k w with
        | (Ok v, w') => (Ok v, store ((k, v) :: table w') w')
        | (Err e, w') => (Err e, w')
        end
    end.

(** [pd.read_csv(path)] *)
Definition read_csv (path : string) : M DataFrame :=
  do _ <- emit (ReadCsv path);
  fun w =>
    match file w with
    | Some data => (Ok data, w)
    | None => (Err (FileNotFoundError path), w)
    end.

(** Lines 34-40. *)
Definition load_data_body (_ : unit) : M DataFrame :=
  do data <- read_csv "mushrooms.csv";
  lift (encode_columns data).

Definition load_data : M DataFrame :=
  st_cache unit_eqb load_data_cache with_load_data_cache load_data_body tt.

(** The free variables of [plot_metrics], read when a statement uses
    them. *)
Definition read_model : M py_model :=
  fun w =>
    match model (vars w) with
    | Some m => (Ok m, w)
    | None => (Err (NameError "model"), w)
    end.

Definition read_x_test : M DataFrame :=
  fun w =>
    match x_test (vars w) with
    | Some x => (Ok x, w)
    | None => (Err (NameError "x_test"), w)
    end.

Definition read_y_test : M Series :=
  fun w =>
    match y_test (vars w) with
    | Some y => (Ok y, w)
    | None => (Err (NameError "y_test"), w)
    end.

Definition assign_model (m : py_model) : M unit :=
  fun w => (Ok tt, with_vars (mkLocals (Some m) (x_test (vars w))
                                       (y_test (vars w))) w).

Definition assign_tests (x : DataFrame) (y : Series) : M unit :=
  fun w => (Ok tt, with_vars (mkLocals (model (vars w)) (Some x) (Some y)) w).

(** [Display.from_estimator(model, x_test, y_test)]: draws on the current
    figure; an estimator that was not fitted is refused. *)
Definition from_estimator (p : plot) : M unit :=
  do m <- read_model;
  do _x <- read_x_test;
  do _y <- read_y_test;
  match fitted m with
  | None => raise NotFittedError
  | Some _ => fun w => (Ok tt, with_figure (Some p) w)
  end.

(** [st.pyplot()]: renders the current figure and clears it. *)
Definition pyplot : M unit :=
  fun w => (Ok tt, with_figure None (with_log (log w ++ [Pyplot (figure w)]) w)).

Definition contains (s : string) (l : list string) : bool :=
  existsb (String.eqb s) l.

(** Lines 52-64. *)
Definition plot_metrics (metrics_list : list string) : M unit :=
  do _ <- (if contains "Confusion Matrix" metrics_list
           then do _ <- emit (Subheader "Confusion Matrix");
                do _ <- from_estimator ConfusionMatrixDisplay;
                pyplot
           else ret tt);
  do _ <- (if contains "ROC Curve" metrics_list
           then do _ <- emit (Subheader "ROC Curve");
                do _ <- from_estimator RocCurveDisplay;
                pyplot
           else ret tt);
  if contains "Precision-Recall Curve" metrics_list
  then do _ <- emit (Subheader "Precision-Recall Curve");
       do _ <- from_estimator PrecisionRecallDisplay;
       pyplot
  else ret tt.

(** ** The script proper *)

Section Script.

(** [numpy.random.RandomState(0).permutation(n)]: the shuffled row
    positions that [train_test_split(..., random_state=0)] draws. *)
Variable permutation : nat -> list nat.

(** What [estimator.fit(x_train, y_train)] learns: the prediction
    function of the fitted model, or the message of the [ValueError]
    with which the fitting routine rejects its parameters or data. *)
Variable learn :
  Estimator -> DataFrame -> Series -> string + (DataFrame -> list value).

(** [train_test_split(x, y, test_size=0.3, random_state=0)]: the first
    [n_test] shuffled positions are the test rows, the next [n_train]
    the training rows. *)
Definition train_test_split (x : DataFrame) (y : Series) : result split_t :=
  if negb (Nat.eqb (len x) (length (s_index y)))
  then Err (ValueError "inconsistent numbers of samples")
  else
    try sizes <- validate_shuffle_split (len x);
    let ind := permutation (len x) in
    let ind_test := firstn (snd sizes) ind in
    let ind_train := firstn (fst sizes) (skipn (snd sizes) ind) in
    try x_train <- iloc x ind_train;
    try x_test <- iloc x ind_test;
    try y_train <- iloc_series y ind_train;
    try y_test <- iloc_series y ind_test;
    Ok (x_train, x_test, y_train, y_test).

(** Lines 45-49, without the cache decorator. *)
Definition split_body (df : DataFrame) : result split_t :=
  try y <- getattr df "type";
  try x <- drop df "type";
  train_test_split x y.

(** Lines 44-49. *)
Definition split (df : DataFrame) : M split_t :=
  st_cache DataFrame_eqb split_cache with_split_cache
           (fun df => lift (split_body df)) df.

(** The memo table of [split] holds what [split] returned. *)
Definition split_cache_sound (w : world) : Prop :=
  forall df parts,
    assoc DataFrame_eqb df (split_cache w) = Some parts ->
    split_body df = Ok parts.

(** [model = Estimator(...)] *)
Definition construct (est : Estimator) : M unit :=
  do _ <- emit (Construct est);
  assign_model {| estimator := est; fitted := None |}.

(** [model.fit(x_train, y_train)]: fits the object in place. *)
Definition model_fit (x_train : DataFrame) (y_train : Series) : M unit :=
  do m <- read_model;
  match learn (estimator m) x_train y_train with
  | inl msg => raise (ValueError msg)
  | inr f =>
      do _ <- emit (Fit (estimator m));
      assign_model {| estimator := estimator m; fitted := Some f |}
  end.

(** [model.predict(x)] *)
Definition model_predict (x : DataFrame) : M (list value) :=
  do m <- read_model;
  match fitted m with
  | None => raise NotFittedError
  | Some f => ret (f x)
  end.

(** [model.score(x, y)]: the mean accuracy of [predict(x)] against
    [y]. *)
Definition model_score (x : DataFrame) (y : Series) : M Q :=
  do pred <- model_predict x;
  lift (accuracy_score (s_values y) pred).

Definition call_precision_score (y_true y_pred labels : list value) : M Q :=
  do _ <- emit (PrecisionScore y_true y_pred labels);
  lift (precision_score y_true y_pred labels).

Definition call_recall_score (y_true y_pred labels : list value) : M Q :=
  do _ <- emit (RecallScore y_true y_pred labels);
  lift (recall_score y_true y_pred labels).

(** Lines 88-99, 112-123 and 137-148: the three Classify bodies are the
    same statements up to the header text and the constructor call. *)
Definition classify (header : string) (est : Estimator)
  (x_train x_test : DataFrame) (y_train y_test : Series)
  (class_names : list value) (metrics : list string) : M unit :=
  do _ <- emit (Subheader header);
  do _ <- construct est;
  do _ <- model_fit x_train y_train;
  do accuracy <- model_score x_test y_test;
  do y_pred <- model_predict x_test;
  do _ <- emit (Write "Accuracy: " (round2 accuracy));
  do precision <- call_precision_score (s_values y_test) y_pred class_names;
  do _ <- emit (Write "Precision: " (round2 precision));
  do recall <- call_recall_score (s_values y_test) y_pred class_names;
  do _ <- emit (Write "Recall: " (round2 recall));
  plot_metrics metrics.

(** Lines 77-99. *)
Definition svm_branch (ui : session) (x_train x_test : DataFrame)
  (y_train y_test : Series) (class_names : list value) : M unit :=
  do _ <- emit (SidebarSubheader "Model Hyperparameters");
  let C := number_input_float (Qmake 1 100) (inject_Z 10) (C_SVM ui) in
  let kernel := radio ["rbf"; "linear"] (kernel_choice ui) in
  let gamma := radio ["scale"; "auto"] (gamma_choice ui) in
  let metrics := multiselect metric_options (metrics_choice ui) in
  if classify_pressed ui
  then classify "Support Vector Machine (SVM) Results"
                (SVC C kernel gamma)
                x_train x_test y_train y_test class_names metrics
  else ret tt.

(** Lines 102-123. *)
Definition logistic_branch (ui : session) (x_train x_test : DataFrame)
  (y_train y_test : Series) (class_names : list value) : M unit :=
  do _ <- emit (SidebarSubheader "Model Hyperparameters");
  let C := number_input_float (Qmake 1 100) (inject_Z 10) (C_LR ui) in
  let max_iter := slider 100 500 (max_iter_value ui) in
  let metrics := multiselect metric_options (metrics_choice ui) in
  if classify_pressed ui
  then classify "Logistic Regression Results"
                (LogisticRegression C max_iter)
                x_train x_test y_train y_test class_names metrics
  else ret tt.

(** Lines 126-148. *)
Definition forest_branch (ui : session) (x_train x_test : DataFrame)
  (y_train y_test : Series) (class_names : list value) : M unit :=
  do _ <- emit (SidebarSubheader "Model Hyperparameters");
  let n_estimators := number_input 100 5000 (n_estimators_value ui) in
  let max_depth := number_input 1 20 (max_depth_value ui) in
  let bootstrap := radio ["True"; "False"] (bootstrap_choice ui) in
  let metrics := multiselect metric_options (metrics_choice ui) in
  if classify_pressed ui
  then classify "Random Forest Results"
                (RandomForestClassifier n_estimators max_depth
                                        (PyStr bootstrap) (-1))
                x_train x_test y_train y_test class_names metrics
  else ret tt.

(** Line 70. *)
Definition class_names : list value := [VStr "edible"; VStr "poisonous"].

(** Lines 25-153.  A call starts with its local variables unbound. *)
Definition main (ui : session) : M unit :=
  do _ <- (fun w => (Ok tt, with_vars unbound w));
  do _ <- emit (Title "Binary Classification Web App");
  do _ <- emit (SidebarTitle "Binary Classification Web App");
  do _ <- emit (Markdown "Are your mushrooms edible or poisonous? 🍄");
  do _ <- emit (SidebarMarkdown "Are your mushrooms edible or poisonous? 🍄");
  do df <- load_data;
  do parts <- split df;
  let '(x_train, x_test, y_train, y_test) := parts in
  do _ <- assign_tests x_test y_test;
  do _ <- emit (SidebarSubheader "Choose Classifier");
  let classifier := selectbox classifier_options (classifier_choice ui) in
  do _ <- (if String.eqb classifier "Support Vector Machine (SVM)"
           then svm_branch ui x_train x_test y_train y_test class_names
           else ret tt);
  do _ <- (if String.eqb classifier "Logistic Regression"
           then logistic_branch ui x_train x_test y_train y_test class_names
           else ret tt);
  do _ <- (if String.eqb classifier "Random Forest"
           then forest_branch ui x_train x_test y_train y_test class_names
           else ret tt);
  if show_raw_checked ui
  then do _ <- emit (Subheader "Mushroom Data Set for Classification");
       emit (WriteFrame df)
  else ret tt.

End Script.

(** ** Vocabulary of the properties *)

(** The header each plot is rendered under, and the order of the three
    tests in [plot_metrics]. *)
Definition plot_title (p : plot) : string :=
  match p with
  | ConfusionMatrixDisplay => "Confusion Matrix"
  | RocCurveDisplay => "ROC Curve"
  | PrecisionRecallDisplay => "Precision-Recall Curve"
  end.

Definition plot_order : list plot :=
  [ConfusionMatrixDisplay; RocCurveDisplay; PrecisionRecallDisplay].

Definition rendering (p : plot) : list event :=
  [Subheader (plot_title p); Pyplot (Some p)].

(** The figures a trace renders, in order. *)
Definition figures (t : list event) : list (option plot) :=
  flat_map (fun e => match e with Pyplot f => [f] | _ => [] end) t.

(** The variables [plot_metrics] closes over are bound, and [model] is
    fitted. *)
Definition ready (w : world) : Prop :=
  exists m f x y,
    vars w = mkLocals (Some m) (Some x) (Some y) /\ fitted m = Some f.

(** Where a trace stands with the model object: none built yet, one
    built and not fitted, one fitted. *)
Inductive stage : Type :=
| NoModel
| Unfit (est : Estimator)
| Fitted (est : Estimator).

Definition Estimator_eq_dec (a b : Estimator) : {a = b} + {a <> b}.
Proof.
  repeat decide equality.
Defined.

(** One event seen from a stage: a fit must follow the construction of
    the same estimator, a plot must follow a fit and show a figure. *)
Definition advance (s : stage) (e : event) : option stage :=
  match e with
  | Construct est => Some (Unfit est)
  | Fit est =>
      match s with
      | Unfit est' => if Estimator_eq_dec est est' then Some (Fitted est)
                      else None
      | _ => None
      end
  | Pyplot fig =>
      match s, fig with
      | Fitted _, Some _ => Some s
      | _, _ => None
      end
  | _ => Some s
  end.

Fixpoint run_stage (s : stage) (t : list event) : option stage :=
  match t with
  | [] => Some s
  | e :: t' =>
      match advance s e with
      | Some s' => run_stage s' t'
      | None => None
      end
  end.

(** A displayed number is within [[0, 1]]. *)
Definition in_unit (x : Q) : Prop := (0 <= x)%Q /\ (x <= 1)%Q.

Definition write_in_unit (e : event) : Prop :=
  match e with
  | Write _ x => in_unit x
  | _ => True
  end.

(** Referring to a variable that is unbound, or to a model that is not
    fitted. *)
Definition scope_error (e : exn) : bool :=
  match e with
  | NameError _ => true
  | NotFittedError => true
  | _ => false
  end.

Definition raises_scope_error {A : Type} (r : result A) : bool :=
  match r with
  | Ok _ => false
  | Err e => scope_error e
  end.

(** Events that say nothing about the model object. *)
Definition neutral (e : event) : bool :=
  match e with
  | Construct _ | Fit _ | Pyplot _ => false
  | _ => true
  end.

(** A trace that is in order whatever the stage it starts from. *)
Definition calm (t : list event) : Prop :=
  forall s, run_stage s t <> None.

(** A computation behaves when, started where [P] holds, it adds a calm
    trace whose displayed numbers are within [[0, 1]], and either
    returns where [Q] holds or raises something other than a scope
    error. *)
Definition behaves {A : Type} (P : world -> Prop) (m : M A)
  (Q : A -> world -> Prop) : Prop :=
  forall w, P w ->
    exists t,
      log (snd (m w)) = log w ++ t /\
      calm t /\
      Forall write_in_unit t /\
      match fst (m w) with
      | Ok a => Q a (snd (m w))
      | Err e => scope_error e = false
      end.

(** An assertion about the variables only. *)
Definition stable (P : world -> Prop) : Prop :=
  forall w w', vars w' = vars w -> P w -> P w'.

(** The test split is bound in [main]'s frame. *)
Definition tests_bound (w : world) : Prop :=
  exists x y, x_test (vars w) = Some x /\ y_test (vars w) = Some y.

(** Every column of a frame has one cell per row. *)
Definition well_formed (df : DataFrame) : Prop :=
  Forall (fun nc => length (snd nc) = len df) (columns df).

(** The column names other than the label's, in order. *)
Definition feature_names (df : DataFrame) : list string :=
  filter (fun n => negb (String.eqb n "type")) (column_names df).

(** An assertion about the file and the two memo tables only. *)
Definition cache_only (I : world -> Prop) : Prop :=
  forall w w',
    file w' = file w ->
    load_data_cache w' = load_data_cache w ->
    split_cache w' = split_cache w ->
    I w -> I w'.

(** A computation that leaves the file and the memo tables alone and
    only adds events of the kind [E]. *)
Definition framed {A : Type} (E : event -> Prop) (m : M A) : Prop :=
  forall w,
    file (snd (m w)) = file w /\
    load_data_cache (snd (m w)) = load_data_cache w /\
    split_cache (snd (m w)) = split_cache w /\
    exists t, log (snd (m w)) = log w ++ t /\ Forall E t.

(** Started where [P] holds, the computation adds events of the kind
    [E] and ends where [Q] holds, or raises where [X] holds. *)
Definition run {A : Type} (E : event -> Prop) (P : world -> Prop)
  (m : M A) (Q X : world -> Prop) : Prop :=
  forall w, P w ->
    (exists t, log (snd (m w)) = log w ++ t /\ Forall E t) /\
    match fst (m w) with
    | Ok _ => Q (snd (m w))
    | Err _ => X (snd (m w))
    end.

(** The events of [plot_metrics]. *)
Definition plot_event (e : event) : Prop :=
  match e with
  | Subheader _ | Pyplot _ => True
  | _ => False
  end.

(** The events of a Classify body that builds the estimator [est]. *)
Definition classify_event (est : Estimator) (e : event) : Prop :=
  match e with
  | Subheader _ | Write _ _ | Pyplot _ => True
  | PrecisionScore _ _ _ | RecallScore _ _ _ => True
  | Construct est' | Fit est' => est' = est
  | _ => False
  end.

(** The events of a classifier branch of [main]: its sidebar header,
    and a Classify body when the button was pressed. *)
Definition branch_event (ui : session) (est : Estimator) (e : event)
  : Prop :=
  e = SidebarSubheader "Model Hyperparameters" \/
  (classify_pressed ui = true /\ classify_event est e).

(** An estimator as the sidebar describes it: the family the classifier
    widget names, hyperparameters within the bounds and among the
    options of their widgets. *)
Definition sidebar_model (ui : session) (est : Estimator) : Prop :=
  let classifier := selectbox classifier_options (classifier_choice ui) in
  match est with
  | SVC C kernel gamma =>
      classifier = "Support Vector Machine (SVM)" /\
      (Qmake 1 100 <= C)%Q /\ (C <= inject_Z 10)%Q /\
      In kernel ["rbf"; "linear"] /\ In gamma ["scale"; "auto"]
  | LogisticRegression C max_iter =>
      classifier = "Logistic Regression" /\
      (Qmake 1 100 <= C)%Q /\ (C <= inject_Z 10)%Q /\
      (100 <= max_iter <= 500)%Z
  | RandomForestClassifier n_estimators max_depth bootstrap n_jobs =>
      classifier = "Random Forest" /\
      (100 <= n_estimators <= 5000)%Z /\ (1 <= max_depth <= 20)%Z /\
      In bootstrap [PyStr "True"; PyStr "False"] /\ n_jobs = (-1)%Z
  end.

(** The events of a run of [main], apart from those of [load_data]. *)
Definition main_event (ui : session) (e : event) : Prop :=
  In e [Title "Binary Classification Web App";
        SidebarTitle "Binary Classification Web App";
        Markdown "Are your mushrooms edible or poisonous? 🍄";
        SidebarMarkdown "Are your mushrooms edible or poisonous? 🍄";
        SidebarSubheader "Choose Classifier"] \/
  (exists est, sidebar_model ui est /\ branch_event ui est e) \/
  (show_raw_checked ui = true /\
   (e = Subheader "Mushroom Data Set for Classification" \/
    exists df, e = WriteFrame df)).

(** Events that show no trace of a model: nothing built, fitted, scored
    or plotted. *)
Definition idle (e : event) : bool :=
  match e with
  | Construct _ | Fit _ | Write _ _ | Pyplot _ => false
  | PrecisionScore _ _ _ | RecallScore _ _ _ => false
  | _ => true
  end.

(** ** A small instance: ten mushrooms *)

Definition strs (l : list string) : list value := map VStr l.

Definition ten_mushrooms : DataFrame :=
  {| index := seq 0 10;
     columns :=
       [("type", strs ["p"; "e"; "e"; "p"; "e"; "e"; "e"; "e"; "p"; "e"]);
        ("cap-shape", strs ["x"; "x"; "b"; "x"; "x"; "x"; "b"; "b"; "x"; "b"]);
        ("odor", strs ["p"; "a"; "l"; "p"; "n"; "a"; "a"; "l"; "p"; "a"])] |}.

(** Its encoding: "e" is 0 and "p" is 1 in [type]. *)
Definition ten_encoded : DataFrame :=
  {| index := seq 0 10;
     columns :=
       [("type", map VInt [1; 0; 0; 1; 0; 0; 0; 0; 1; 0]%Z);
        ("cap-shape", map VInt [1; 1; 0; 1; 1; 1; 0; 0; 1; 0]%Z);
        ("odor", map VInt [3; 0; 1; 3; 2; 0; 0; 1; 3; 0]%Z)] |}.

(** The same table without its label column. *)
Definition no_type_column : DataFrame :=
  {| index := seq 0 10;
     columns :=
       [("cap-shape", strs ["x"; "x"; "b"; "x"; "x"; "x"; "b"; "b"; "x"; "b"]);
        ("odor", strs ["p"; "a"; "l"; "p"; "n"; "a"; "a"; "l"; "p"; "a"])] |}.

Definition no_type_encoded : DataFrame :=
  {| index := seq 0 10;
     columns :=
       [("cap-shape", map VInt [1; 1; 0; 1; 1; 1; 0; 0; 1; 0]%Z);
        ("odor", map VInt [3; 0; 1; 3; 2; 0; 0; 1; 3; 0]%Z)] |}.

(** A table of one mushroom. *)
Definition one_mushroom : DataFrame :=
  {| index := [0];
     columns := [("type", [VInt 0]); ("odor", [VInt 0])] |}.

(** A table whose second column mixes strings and numbers. *)
Definition mixed_column : DataFrame :=
  {| index := [0; 1];
     columns := [("type", strs ["p"; "e"]);
                 ("odor", [VStr "a"; VInt 3])] |}.

(** A shuffle to run the instance with: the rows in reverse. *)
Definition reversed (n : nat) : list nat := rev (seq 0 n).

(** A learner to run the instance with: it calls a mushroom poisonous
    when its odor has the code of "p" (pungent). *)
Definition by_odor (_ : Estimator) (_ : DataFrame) (_ : Series)
  : string + (DataFrame -> list value) :=
  inr (fun x =>
        match lookup "odor" (columns x) with
        | Some c => map (fun v => if value_eqb v (VInt 3) then VInt 1
                                  else VInt 0) c
        | None => []
        end).

(** What [split] returns on [ten_encoded] under [reversed]: rows 9, 8, 7
    are the test rows. *)
Definition ten_x_train : DataFrame :=
  {| index := [6; 5; 4; 3; 2; 1; 0];
     columns :=
       [("cap-shape", map VInt [0; 1; 1; 1; 0; 1; 1]%Z);
        ("odor", map VInt [0; 0; 2; 3; 1; 0; 3]%Z)] |}.

Definition ten_x_test : DataFrame :=
  {| index := [9; 8; 7];
     columns :=
       [("cap-shape", map VInt [0; 1; 0]%Z);
        ("odor", map VInt [0; 3; 1]%Z)] |}.

Definition ten_y_train : Series :=
  {| s_index := [6; 5; 4; 3; 2; 1; 0];
     s_values := map VInt [0; 0; 0; 1; 0; 0; 1]%Z |}.

Definition ten_y_test : Series :=
  {| s_index := [9; 8; 7]; s_values := map VInt [0; 1; 0]%Z |}.

(** The world after [load_data] ran on [ten_mushrooms] with nothing
    cached. *)
Definition ten_loaded : world :=
  with_load_data_cache [(tt, ten_encoded)]
    (with_log [ReadCsv "mushrooms.csv"] (fresh (Some ten_mushrooms))).

(** A world in which a model is fitted and the test split is bound. *)
Definition ten_fitted : world :=
  mkWorld (Some ten_mushrooms) [(tt, ten_encoded)] [] None
    (mkLocals
       (Some (mkModel (SVC (Qmake 1 100) "rbf" "scale") (Some (fun _ => []))))
       (Some ten_x_test) (Some ten_y_test))
    [].

(** Test labels of three classes, and a learner whose model predicts
    them back. *)
Definition three_classes : Series :=
  {| s_index := [0; 1; 2]; s_values := map VInt [0; 1; 2]%Z |}.

Definition parrot (_ : Estimator) (_ : DataFrame) (_ : Series)
  : string + (DataFrame -> list value) :=
  inr (fun _ => map VInt [0; 1; 2]%Z).

(** A learner whose fit always fails. *)
Definition stubborn (_ : Estimator) (_ : DataFrame) (_ : Series)
  : string + (DataFrame -> list value) :=
  inl "Invalid parameter".

(** A world in which the test split is bound and no model is. *)
Definition ten_split : world :=
  mkWorld (Some ten_mushrooms) [(tt, ten_encoded)] [] None
    (mkLocals None (Some ten_x_test) (Some ten_y_test)) [].

(** The same choices as [forest_session] below, Classify not pressed. *)
Definition browsing_session : session :=
  {| classifier_choice := 2;
     C_SVM := Qmake 1 100; kernel_choice := 0; gamma_choice := 0;
     C_LR := Qmake 1 100; max_iter_value := 100;
     n_estimators_value := 100; max_depth_value := 1;
     bootstrap_choice := 1;
     metrics_choice := [2; 0];
     classify_pressed := false;
     show_raw_checked := true |}.

(** Random Forest, bootstrap "False", all three plots, Classify pressed. *)
Definition forest_session : session :=
  {| classifier_choice := 2;
     C_SVM := Qmake 1 100; kernel_choice := 0; gamma_choice := 0;
     C_LR := Qmake 1 100; max_iter_value := 100;
     n_estimators_value := 100; max_depth_value := 1;
     bootstrap_choice := 1;
     metrics_choice := [2; 0];
     classify_pressed := true;
     show_raw_checked := false |}.

(** * Properties *)

(** ** The label encoder *)

Lemma value_eqb_eq (a b : value) : value_eqb a b = true <-> a = b.
Proof.
  unfold value_eqb. destruct (value_eq_dec a b); split; intros; congruence.
Qed.

Lemma insert_perm (v : value) (l : list value) :
  Permutation (insert v l) (v :: l).
Proof.
  induction l as [|x l IH]; simpl.
  - apply Permutation_refl.
  - destruct (value_leb v x).
    + apply Permutation_refl.
    + eapply Permutation_trans; [apply perm_skip, IH | apply perm_swap].
Qed.

Lemma sorted_perm (l : list value) : Permutation (sorted l) l.
Proof.
  induction l as [|x l IH]; simpl.
  - constructor.
  - eapply Permutation_trans; [apply insert_perm | apply perm_skip, IH].
Qed.

Lemma classes_length (col : list value) :
  length (classes_ col) = length (distinct col).
Proof.
  unfold classes_. apply Permutation_length, sorted_perm.
Qed.

Lemma classes_In (col : list value) (v : value) :
  In v (classes_ col) <-> In v col.
Proof.
  unfold classes_, distinct. split; intros H.
  - eapply nodup_In. eapply Permutation_in; [apply sorted_perm | exact H].
  - eapply Permutation_in; [apply Permutation_sym, sorted_perm |].
    apply nodup_In. exact H.
Qed.

Lemma index_of_lt (v : value) (l : list value) :
  In v l -> index_of v l < length l.
Proof.
  induction l as [|x l IH]; simpl; [tauto|].
  intros [->|Hin].
  - unfold value_eqb. destruct (value_eq_dec v v); [lia | congruence].
  - destruct (value_eqb v x); [lia|]. specialize (IH Hin). lia.
Qed.

Lemma index_of_inj (a b : value) (l : list value) :
  In a l -> index_of a l = index_of b l -> a = b.
Proof.
  induction l as [|x l IH]; simpl; [tauto|].
  intros Hin.
  destruct (value_eqb a x) eqn:Ea, (value_eqb b x) eqn:Eb; try discriminate.
  - intros _. apply value_eqb_eq in Ea, Eb. congruence.
  - intros E. injection E as E. destruct Hin as [->|Hin].
    + unfold value_eqb in Ea. destruct (value_eq_dec a a); congruence.
    + auto.
Qed.

Lemma code_range (col : list value) (v : value) :
  In v col ->
  (0 <= code col v <= Z.of_nat (length (distinct col)) - 1)%Z.
Proof.
  intros Hin. unfold code.
  pose proof (index_of_lt v (classes_ col)) as H.
  rewrite classes_length in H.
  specialize (H (proj2 (classes_In col v) Hin)). lia.
Qed.

Lemma code_inj (col : list value) (a b : value) :
  In a col -> code col a = code col b -> a = b.
Proof.
  unfold code. intros Hin E. apply Nat2Z.inj in E.
  eapply index_of_inj; [apply classes_In; exact Hin | exact E].
Qed.

Lemma fit_transform_Ok (col col' : list value) :
  fit_transform col = Ok col' ->
  col' = map (fun v => VInt (code col v)) col.
Proof.
  unfold fit_transform. destruct (uniform col); congruence.
Qed.

(** ** The loop of load_data *)

Lemma lookup_app_fresh (name : string) (c : list value)
  (done rest : list (string * list value)) :
  ~ In name (map fst done) ->
  lookup name (done ++ (name, c) :: rest) = Some c.
Proof.
  induction done as [|[n c0] done IH]; simpl; intros Hn.
  - now rewrite String.eqb_refl.
  - destruct (String.eqb_spec n name) as [->|_]; [tauto|].
    apply IH. tauto.
Qed.

Lemma replace_app_fresh (name : string) (c c' : list value)
  (done rest : list (string * list value)) :
  ~ In name (map fst done) ->
  replace name c' (done ++ (name, c) :: rest) = done ++ (name, c') :: rest.
Proof.
  induction done as [|[n c0] done IH]; simpl; intros Hn.
  - now rewrite String.eqb_refl.
  - destruct (String.eqb_spec n name) as [->|_]; [tauto|].
    rewrite IH; tauto.
Qed.

Lemma fold_encode_Err (names : list string) (e : exn) :
  fold_left (fun acc col => try d <- acc; encode_column d col) names (Err e)
  = Err e.
Proof.
  induction names as [|n names IH]; simpl; auto.
Qed.

Lemma fold_encode (todo done : list (string * list value))
  (idx : list nat) (r : DataFrame) :
  NoDup (map fst (done ++ todo)) ->
  fold_left (fun acc col => try d <- acc; encode_column d col)
            (map fst todo) (Ok (mkDataFrame idx (done ++ todo))) = Ok r ->
  exists todo',
    r = mkDataFrame idx (done ++ todo') /\ Forall2 encoded todo todo'.
Proof.
  revert done.
  induction todo as [|[n c] todo IH]; intros done Hnd; simpl.
  - intros [= <-]. exists []. split; [reflexivity | constructor].
  - assert (Hfresh : ~ In n (map fst done)).
    { rewrite map_app in Hnd. simpl in Hnd.
      apply NoDup_remove_2 in Hnd. intros Hin. apply Hnd.
      apply in_or_app. now left. }
    unfold encode_column at 2, getitem. simpl.
    rewrite (lookup_app_fresh n c done todo Hfresh). simpl.
    destruct (fit_transform c) as [c'|e] eqn:Hc; simpl.
    + unfold setitem. simpl.
      rewrite (replace_app_fresh n c c' done todo Hfresh).
      replace (done ++ (n, c') :: todo) with ((done ++ [(n, c')]) ++ todo)
        by (rewrite <- app_assoc; reflexivity).
      intros Hfold. apply IH in Hfold.
      * destruct Hfold as (todo' & -> & Hall).
        exists ((n, c') :: todo'). split.
        -- rewrite <- app_assoc. reflexivity.
        -- constructor; [split; [reflexivity | exact Hc] | exact Hall].
      * rewrite <- app_assoc. simpl.
        rewrite map_app in *. simpl in *. exact Hnd.
    + rewrite fold_encode_Err. discriminate.
Qed.

Lemma encode_columns_Ok (raw enc : DataFrame) :
  NoDup (column_names raw) ->
  encode_columns raw = Ok enc ->
  index enc = index raw /\ Forall2 encoded (columns raw) (columns enc).
Proof.
  intros Hnd H. unfold encode_columns, column_names in *.
  destruct raw as [idx cols]. simpl in *.
  destruct (fold_encode cols [] idx enc Hnd H) as (cols' & -> & Hall).
  simpl. auto.
Qed.

(** ** The cached loader *)

Lemma load_data_miss (w : world) (raw : DataFrame) :
  load_data_cache w = [] ->
  file w = Some raw ->
  load_data w =
    match encode_columns raw with
    | Ok enc =>
        (Ok enc,
         with_load_data_cache [(tt, enc)]
           (with_log (log w ++ [ReadCsv "mushrooms.csv"]) w))
    | Err e => (Err e, with_log (log w ++ [ReadCsv "mushrooms.csv"]) w)
    end.
Proof.
  intros Hc Hf.
  unfold load_data, st_cache, load_data_body, read_csv, bind, emit, lift.
  rewrite Hc. simpl. rewrite Hf.
  destruct (encode_columns raw); simpl; rewrite ?Hc; reflexivity.
Qed.

Lemma load_data_hit (w : world) (df : DataFrame)
  (c : list (unit * DataFrame)) :
  load_data_cache w = (tt, df) :: c ->
  load_data w = (Ok df, w).
Proof.
  intros Hc. unfold load_data, st_cache. rewrite Hc. reflexivity.
Qed.

Lemma Forall2_In_r {A B : Type} (R : A -> B -> Prop)
  (l : list A) (l' : list B) (y : B) :
  Forall2 R l l' -> In y l' -> exists x, In x l /\ R x y.
Proof.
  induction 1 as [|a b l l' Hab _ IH]; simpl; [tauto|].
  intros [<-|Hin].
  - exists a. auto.
  - destruct (IH Hin) as (x & Hx & HR). exists x. auto.
Qed.

Lemma Forall2_encoded_names (l l' : list (string * list value)) :
  Forall2 encoded l l' -> map fst l' = map fst l.
Proof.
  induction 1 as [|a b l l' [Hn _] _ IH]; simpl; congruence.
Qed.

(** C5.  In the table [load_data] returns after reading the file, every
    column is the same-named raw column sent through one function from
    values to integers: equal raw values get equal codes, every code lies
    in [[0, k-1]] with [k] the number of distinct values of the raw
    column, and different values get different codes. *)
Theorem load_data_codes (w w' : world) (raw enc : DataFrame) :
  load_data_cache w = [] ->
  file w = Some raw ->
  NoDup (column_names raw) ->
  load_data w = (Ok enc, w') ->
  column_names enc = column_names raw /\
  forall name col, In (name, col) (columns enc) ->
    exists rawcol f,
      In (name, rawcol) (columns raw) /\
      col = map (fun v => VInt (f v)) rawcol /\
      (forall v, In v rawcol ->
         (0 <= f v <= Z.of_nat (length (distinct rawcol)) - 1)%Z) /\
      (forall a b, In a rawcol -> In b rawcol -> f a = f b -> a = b).
Proof.
  intros Hc Hf Hnd Hload.
  rewrite (load_data_miss w raw Hc Hf) in Hload.
  destruct (encode_columns raw) as [enc0|e] eqn:Henc; [|discriminate].
  injection Hload as <- _.
  destruct (encode_columns_Ok raw enc0 Hnd Henc) as [_ Hall].
  split.
  - apply Forall2_encoded_names, Hall.
  - intros name col Hin.
    destruct (Forall2_In_r _ _ _ _ Hall Hin) as ([n rawcol] & Hraw & Hn & Hft).
    simpl in Hn, Hft. subst n.
    exists rawcol, (code rawcol). split; [exact Hraw|]. split.
    + apply fit_transform_Ok, Hft.
    + split.
      * intros v Hv. apply code_range, Hv.
      * intros a b Ha _ E. eapply code_inj; eauto.
Qed.

Lemma ten_mushrooms_names : NoDup (column_names ten_mushrooms).
Proof.
  unfold column_names. simpl.
  repeat constructor; simpl; intuition discriminate.
Qed.

Lemma load_data_codes_witness :
  column_names ten_encoded = column_names ten_mushrooms /\
  forall name col, In (name, col) (columns ten_encoded) ->
    exists rawcol f,
      In (name, rawcol) (columns ten_mushrooms) /\
      col = map (fun v => VInt (f v)) rawcol /\
      (forall v, In v rawcol ->
         (0 <= f v <= Z.of_nat (length (distinct rawcol)) - 1)%Z) /\
      (forall a b, In a rawcol -> In b rawcol -> f a = f b -> a = b).
Proof.
  apply (load_data_codes (fresh (Some ten_mushrooms)) ten_loaded
           ten_mushrooms ten_encoded).
  - reflexivity.
  - reflexivity.
  - exact ten_mushrooms_names.
  - vm_compute. reflexivity.
Defined.

(** C8.  Once [load_data] has returned a table, a later call in the same
    process (any world whose memo table of [load_data] is the one the
    first call left) returns that very table and changes nothing: it
    adds no event, so it does not read the file, whatever the file has
    become. *)
Theorem load_data_twice (w w1 w2 : world) (df : DataFrame) :
  load_data w = (Ok df, w1) ->
  load_data_cache w2 = load_data_cache w1 ->
  load_data w2 = (Ok df, w2) /\
  ~ In (ReadCsv "mushrooms.csv") (skipn (length (log w2)) (log (snd (load_data w2)))).
Proof.
  intros H1 Hc.
  assert (Hhit : exists c, load_data_cache w1 = (tt, df) :: c).
  { unfold load_data, st_cache in H1.
    destruct (load_data_cache w) as [|[[] d] c] eqn:Hw; simpl in H1.
    - destruct (load_data_body tt w) as [[v|e] w'] eqn:Hb; [|discriminate].
      injection H1 as <- <-. simpl. eauto.
    - injection H1 as <- <-. eauto. }
  destruct Hhit as [c Hw1]. rewrite Hw1 in Hc.
  rewrite (load_data_hit w2 df c Hc). split; [reflexivity|].
  simpl. rewrite skipn_all. simpl. tauto.
Qed.

Lemma load_data_twice_witness :
  let w2 := with_file None ten_loaded in
  load_data w2 = (Ok ten_encoded, w2) /\
  ~ In (ReadCsv "mushrooms.csv")
       (skipn (length (log w2)) (log (snd (load_data w2)))).
Proof.
  intros w2.
  apply (load_data_twice (fresh (Some ten_mushrooms)) ten_loaded w2
           ten_encoded).
  - vm_compute. reflexivity.
  - reflexivity.
Defined.

(** ** plot_metrics *)

Lemma ready_frame (w w' : world) :
  vars w' = vars w -> ready w -> ready w'.
Proof.
  intros Hv (m & f & x & y & Hw & Hf). exists m, f, x, y.
  rewrite Hv. auto.
Qed.

(** One of the three blocks of [plot_metrics], in a ready world. *)
Lemma plot_block (p : plot) (w : world) :
  ready w ->
  (do _ <- emit (Subheader (plot_title p));
   do _ <- from_estimator p;
   pyplot) w
  = (Ok tt, with_figure None (with_log (log w ++ rendering p) w)).
Proof.
  intros (m & f & x & y & Hw & Hf).
  destruct w as [fi lc sc fg vs lg]. simpl in Hw. subst vs.
  unfold bind, emit, from_estimator, bind, read_model, read_x_test,
    read_y_test, pyplot.
  simpl. rewrite Hf. simpl.
  unfold with_figure, with_log. simpl.
  rewrite <- app_assoc. reflexivity.
Qed.

Lemma plot_if (p : plot) (b : bool) (w : world) :
  ready w ->
  exists w',
    (if b
     then do _ <- emit (Subheader (plot_title p));
          do _ <- from_estimator p;
          pyplot
     else ret tt) w = (Ok tt, w') /\
    log w' = log w ++ (if b then rendering p else []) /\
    vars w' = vars w /\
    file w' = file w /\ load_data_cache w' = load_data_cache w /\
    split_cache w' = split_cache w.
Proof.
  intros Hr. destruct b.
  - rewrite (plot_block p w Hr). eexists. split; [reflexivity|].
    simpl. repeat split; reflexivity.
  - exists w. unfold ret. rewrite app_nil_r. repeat split; reflexivity.
Qed.

Lemma plot_metrics_run (metrics_list : list string) (w : world) :
  ready w ->
  exists w',
    plot_metrics metrics_list w = (Ok tt, w') /\
    log w' = log w ++
      flat_map rendering
        (filter (fun p => contains (plot_title p) metrics_list) plot_order) /\
    vars w' = vars w /\
    file w' = file w /\ load_data_cache w' = load_data_cache w /\
    split_cache w' = split_cache w.
Proof.
  intros Hr. unfold plot_metrics.
  destruct (plot_if ConfusionMatrixDisplay
              (contains "Confusion Matrix" metrics_list) w Hr)
    as (w1 & H1 & L1 & V1 & F1 & C1 & S1).
  assert (Hr1 : ready w1) by (eapply ready_frame; eauto).
  destruct (plot_if RocCurveDisplay
              (contains "ROC Curve" metrics_list) w1 Hr1)
    as (w2 & H2 & L2 & V2 & F2 & C2 & S2).
  assert (Hr2 : ready w2) by (eapply ready_frame; eauto).
  destruct (plot_if PrecisionRecallDisplay
              (contains "Precision-Recall Curve" metrics_list) w2 Hr2)
    as (w3 & H3 & L3 & V3 & F3 & C3 & S3).
  exists w3. simpl in H1, H2, H3.
  unfold bind at 1. rewrite H1. unfold bind at 1. rewrite H2.
  split; [exact H3|].
  split; [|repeat split; congruence].
  rewrite L3, L2, L1. simpl.
  destruct (contains "Confusion Matrix" metrics_list),
    (contains "ROC Curve" metrics_list),
    (contains "Precision-Recall Curve" metrics_list);
    simpl; rewrite <- ?app_assoc; simpl; rewrite ?app_nil_r; reflexivity.
Qed.

Lemma figures_rendering (ps : list plot) :
  figures (flat_map rendering ps) = map Some ps.
Proof.
  induction ps as [|p ps IH]; simpl; [reflexivity|].
  f_equal. exact IH.
Qed.

(** C6.  With a fitted model and the test split bound, [plot_metrics]
    returns normally and renders, for any list of selected names, the
    plots whose name is in the list and no other, each once, each under
    its header, in the order Confusion Matrix, ROC Curve,
    Precision-Recall Curve: the selection only decides which plots of
    that fixed sequence are kept. *)
Theorem plot_metrics_selected (metrics_list : list string) (w : world) :
  ready w ->
  exists w',
    plot_metrics metrics_list w = (Ok tt, w') /\
    log w' = log w ++
      flat_map rendering
        (filter (fun p => contains (plot_title p) metrics_list) plot_order) /\
    figures (skipn (length (log w)) (log w')) =
      map Some
        (filter (fun p => contains (plot_title p) metrics_list) plot_order).
Proof.
  intros Hr.
  destruct (plot_metrics_run metrics_list w Hr) as (w' & H & L & _).
  exists w'. split; [exact H|]. split; [exact L|].
  rewrite L, skipn_app, skipn_all, Nat.sub_diag. simpl.
  apply figures_rendering.
Qed.

Lemma plot_metrics_selected_witness :
  exists w',
    plot_metrics ["Precision-Recall Curve"; "Confusion Matrix"] ten_fitted
    = (Ok tt, w') /\
    log w' = log ten_fitted ++
      flat_map rendering
        (filter (fun p => contains (plot_title p)
                            ["Precision-Recall Curve"; "Confusion Matrix"])
                plot_order) /\
    figures (skipn (length (log ten_fitted)) (log w')) =
      map Some
        (filter (fun p => contains (plot_title p)
                            ["Precision-Recall Curve"; "Confusion Matrix"])
                plot_order).
Proof.
  apply (plot_metrics_selected
           ["Precision-Recall Curve"; "Confusion Matrix"] ten_fitted).
  unfold ready, ten_fitted. simpl.
  do 4 eexists. split; reflexivity.
Defined.

(** Selecting Confusion Matrix alone renders one plot. *)
Example confusion_matrix_alone :
  figures (log (snd (plot_metrics ["Confusion Matrix"] ten_fitted)))
  = [Some ConfusionMatrixDisplay].
Proof. reflexivity. Qed.

(** The order of selection does not show in what is rendered. *)
Example selection_order :
  figures (log (snd (plot_metrics
                       (multiselect metric_options [2; 1; 0]) ten_fitted)))
  = [Some ConfusionMatrixDisplay; Some RocCurveDisplay;
     Some PrecisionRecallDisplay].
Proof. reflexivity. Qed.

(** ** The splitter *)

(** Case analysis on the first step of a [try] chain that is known to
    return. *)
Ltac try_step H :=
  match goal with
  | |- bindR ?r _ = Ok _ -> _ =>
      destruct r eqn:H; cbn [bindR]; [|congruence]
  end.

Lemma take_length {A : Type} (rows : list nat) (l r : list A) :
  take rows l = Ok r -> length r = length rows.
Proof.
  revert r. induction rows as [|i rows IH]; simpl; intros r.
  - intros [= <-]. reflexivity.
  - destruct (nth_error l i); [|discriminate].
    destruct (take rows l) as [r'|]; simpl; [|discriminate].
    intros [= <-]. simpl. f_equal. apply IH. reflexivity.
Qed.

Lemma take_In {A : Type} (rows : list nat) (l r : list A) (a : A) :
  take rows l = Ok r -> In a r -> In a l.
Proof.
  revert r. induction rows as [|i rows IH]; simpl; intros r.
  - intros [= <-] [].
  - destruct (nth_error l i) as [b|] eqn:Hi; [|discriminate].
    destruct (take rows l) as [r'|]; simpl; [|discriminate].
    intros [= <-] [<-|Hin].
    + eapply nth_error_In. exact Hi.
    + eapply IH; eauto.
Qed.

Lemma iloc_len (df d : DataFrame) (rows : list nat) :
  iloc df rows = Ok d -> len d = length rows.
Proof.
  unfold iloc, len.
  destruct (take rows (index df)) as [i|] eqn:Hi; simpl; [|discriminate].
  destruct (take_columns rows (columns df)); simpl; [|discriminate].
  intros [= <-]. simpl. eapply take_length. exact Hi.
Qed.

Lemma iloc_series_values (s s' : Series) (rows : list nat) (v : value) :
  iloc_series s rows = Ok s' -> In v (s_values s') -> In v (s_values s).
Proof.
  unfold iloc_series.
  destruct (take rows (s_index s)); simpl; [|discriminate].
  destruct (take rows (s_values s)) as [vs|] eqn:Hv; simpl; [|discriminate].
  intros [= <-]. simpl. eapply take_In. exact Hv.
Qed.

Lemma n_test_of_ceil (n : nat) :
  3 * n <= 10 * n_test_of n < 3 * n + 10.
Proof.
  unfold n_test_of.
  pose proof (Nat.div_mod_eq (3 * n + 9) 10) as E.
  pose proof (Nat.mod_upper_bound (3 * n + 9) 10) as B.
  lia.
Qed.

Lemma drop_len (df x : DataFrame) (name : string) :
  drop df name = Ok x -> len x = len df.
Proof.
  unfold drop. destruct (lookup name (columns df)); [|discriminate].
  intros [= <-]. reflexivity.
Qed.

Lemma lookup_None (name : string) (cols : list (string * list value)) :
  ~ In name (map fst cols) -> lookup name cols = None.
Proof.
  induction cols as [|[n c] cols IH]; simpl; [reflexivity|].
  intros Hn. destruct (String.eqb_spec n name) as [->|_]; [tauto|].
  apply IH. tauto.
Qed.

Lemma lookup_encoded (name : string) (l l' : list (string * list value))
  (c : list value) :
  Forall2 encoded l l' ->
  lookup name l' = Some c ->
  exists raw, lookup name l = Some raw /\ fit_transform raw = Ok c.
Proof.
  induction 1 as [|[n rc] [n' c'] l l' [Hn Hft] _ IH]; simpl;
    [discriminate|].
  simpl in Hn, Hft. subst n'.
  destruct (String.eqb n name).
  - intros [= <-]. eauto.
  - exact IH.
Qed.

Lemma fit_transform_ints (raw c : list value) :
  fit_transform raw = Ok c -> Forall (fun v => is_int v = true) c.
Proof.
  intros H. rewrite (fit_transform_Ok raw c H).
  apply Forall_forall. intros v Hv. apply in_map_iff in Hv.
  destruct Hv as (u & <- & _). reflexivity.
Qed.

Lemma train_test_split_sizes_values (permutation : nat -> list nat)
  (x x_train x_test : DataFrame) (y y_train y_test : Series) :
  train_test_split permutation x y = Ok (x_train, x_test, y_train, y_test) ->
  (forall v, In v (s_values y_train) -> In v (s_values y)) /\
  (forall v, In v (s_values y_test) -> In v (s_values y)).
Proof.
  unfold train_test_split.
  destruct (negb (Nat.eqb (len x) (length (s_index y)))); [discriminate|].
  try_step Hv. try_step H1. try_step H2. try_step H3. try_step H4.
  intros [= <- <- <- <-]. split; intros v.
  - eapply iloc_series_values. exact H3.
  - eapply iloc_series_values. exact H4.
Qed.

Section SplitProperties.

Variable permutation : nat -> list nat.

(** NumPy's [permutation(n)] returns the numbers below [n], each once,
    in some order. *)
Hypothesis permutation_spec :
  forall n, Permutation (permutation n) (seq 0 n).

Lemma permutation_length (n : nat) : length (permutation n) = n.
Proof.
  rewrite (Permutation_length (permutation_spec n)). apply length_seq.
Qed.

Lemma split_sound (w : world) (df : DataFrame) (parts : split_t) :
  split_cache_sound permutation w ->
  fst (split permutation df w) = Ok parts ->
  split_body permutation df = Ok parts.
Proof.
  intros Hs. unfold split, st_cache, lift.
  destruct (assoc DataFrame_eqb df (split_cache w)) as [v|] eqn:Ha; simpl.
  - intros [= <-]. apply Hs, Ha.
  - destruct (split_body permutation df); simpl; congruence.
Qed.

Lemma train_test_split_sizes (x x_train x_test : DataFrame)
  (y y_train y_test : Series) :
  train_test_split permutation x y = Ok (x_train, x_test, y_train, y_test) ->
  len x_test = n_test_of (len x) /\
  len x_train = len x - n_test_of (len x) /\
  0 < len x_train.
Proof.
  unfold train_test_split, validate_shuffle_split.
  destruct (negb (Nat.eqb (len x) (length (s_index y)))); [discriminate|].
  destruct (Nat.eqb (len x - n_test_of (len x)) 0) eqn:Hz; cbn [bindR fst snd];
    [discriminate|].
  apply Nat.eqb_neq in Hz.
  try_step H1. try_step H2. try_step H3. try_step H4.
  intros [= <- <- <- <-].
  apply iloc_len in H1, H2.
  rewrite length_firstn, length_skipn, permutation_length in H1.
  rewrite length_firstn, permutation_length in H2.
  pose proof (n_test_of_ceil (len x)) as Hc.
  repeat split; lia.
Qed.

(** C3.  Whenever [split] returns, the training and the test rows add
    up to the rows of the table, and the test rows are the 30% of them
    rounded up to a whole row: [3 n <= 10 n_test < 3 n + 10], which
    puts [n_test / n] within [1 / n] of 0.3. *)
Theorem split_partition (w : world) (df x_train x_test : DataFrame)
  (y_train y_test : Series) :
  split_cache_sound permutation w ->
  fst (split permutation df w) = Ok (x_train, x_test, y_train, y_test) ->
  len x_train + len x_test = len df /\
  3 * len df <= 10 * len x_test < 3 * len df + 10.
Proof.
  intros Hs H. apply (split_sound w) in H; [|exact Hs].
  unfold split_body in H.
  destruct (getattr df "type") as [y|]; simpl in H; [|discriminate].
  destruct (drop df "type") as [x|] eqn:Hx; simpl in H; [|discriminate].
  apply train_test_split_sizes in H.
  destruct H as (Hte & Htr & Hpos).
  rewrite (drop_len df x "type" Hx) in *.
  pose proof (n_test_of_ceil (len df)). lia.
Qed.

End SplitProperties.

Lemma reversed_spec (n : nat) : Permutation (reversed n) (seq 0 n).
Proof.
  unfold reversed. apply Permutation_sym, Permutation_rev.
Qed.

Lemma fresh_split_cache_sound (permutation : nat -> list nat)
  (w : world) :
  split_cache w = [] -> split_cache_sound permutation w.
Proof.
  intros H df parts. rewrite H. discriminate.
Qed.

Lemma split_partition_witness :
  len ten_x_train + len ten_x_test = len ten_encoded /\
  3 * len ten_encoded <= 10 * len ten_x_test < 3 * len ten_encoded + 10.
Proof.
  apply (split_partition reversed reversed_spec ten_loaded ten_encoded
           ten_x_train ten_x_test ten_y_train ten_y_test).
  - apply fresh_split_cache_sound. reflexivity.
  - vm_compute. reflexivity.
Defined.

(** C10.  After [load_data] and [split], the label vectors hold integer
    codes only: the "type" column went through the encoder like every
    other column, so neither "edible" nor "poisonous" (nor any other
    string) is a value of [y_train] or [y_test]. *)
Theorem labels_are_codes (permutation : nat -> list nat)
  (w w1 : world) (raw df x_train x_test : DataFrame)
  (y_train y_test : Series) :
  load_data_cache w = [] ->
  file w = Some raw ->
  NoDup (column_names raw) ->
  load_data w = (Ok df, w1) ->
  split_cache_sound permutation w1 ->
  fst (split permutation df w1) = Ok (x_train, x_test, y_train, y_test) ->
  Forall (fun v => is_int v = true) (s_values y_train) /\
  Forall (fun v => is_int v = true) (s_values y_test) /\
  forall name, In name class_names ->
    ~ In name (s_values y_train) /\ ~ In name (s_values y_test).
Proof.
  intros Hc Hf Hnd Hload Hs Hsplit.
  rewrite (load_data_miss w raw Hc Hf) in Hload.
  destruct (encode_columns raw) as [enc|] eqn:Henc; [|discriminate].
  injection Hload as <- _.
  destruct (encode_columns_Ok raw enc Hnd Henc) as [_ Hall].
  apply (split_sound permutation w1) in Hsplit; [|exact Hs].
  unfold split_body in Hsplit. revert Hsplit.
  unfold getattr.
  destruct (lookup "type" (columns enc)) as [c|] eqn:Hty;
    cbn [bindR]; [|discriminate].
  try_step Hx. intros Hsplit.
  apply train_test_split_sizes_values in Hsplit.
  destruct Hsplit as [Htr Hte]. simpl in Htr, Hte.
  destruct (lookup_encoded "type" _ _ c Hall Hty) as (rc & _ & Hft).
  pose proof (fit_transform_ints rc c Hft) as Hints.
  rewrite Forall_forall in Hints.
  assert (Hytr : Forall (fun v => is_int v = true) (s_values y_train))
    by (apply Forall_forall; auto).
  assert (Hyte : Forall (fun v => is_int v = true) (s_values y_test))
    by (apply Forall_forall; auto).
  split; [exact Hytr|]. split; [exact Hyte|].
  intros name Hname. rewrite Forall_forall in Hytr, Hyte.
  simpl in Hname.
  split; intros Hin;
    [apply Hytr in Hin | apply Hyte in Hin];
    destruct Hname as [<-|[<-|[]]]; discriminate.
Qed.

Lemma labels_are_codes_witness :
  Forall (fun v => is_int v = true) (s_values ten_y_train) /\
  Forall (fun v => is_int v = true) (s_values ten_y_test) /\
  forall name, In name class_names ->
    ~ In name (s_values ten_y_train) /\ ~ In name (s_values ten_y_test).
Proof.
  apply (labels_are_codes reversed (fresh (Some ten_mushrooms)) ten_loaded
           ten_mushrooms ten_encoded ten_x_train ten_x_test
           ten_y_train ten_y_test).
  - reflexivity.
  - reflexivity.
  - exact ten_mushrooms_names.
  - vm_compute. reflexivity.
  - apply fresh_split_cache_sound. reflexivity.
  - vm_compute. reflexivity.
Defined.

(** ** Running main *)

Lemma bind_eq {A B : Type} (m : M A) (k : A -> M B) (w : world) :
  bind m k w =
    match m w with
    | (Ok a, w') => k a w'
    | (Err e, w') => (Err e, w')
    end.
Proof. reflexivity. Qed.

(** [load_data] touches its memo table and the log, nothing else, and
    what it returns depends on the file and on that table only. *)
Lemma load_data_effect (w : world) :
  exists t,
    log (snd (load_data w)) = log w ++ t /\
    (t = [] \/ t = [ReadCsv "mushrooms.csv"]) /\
    vars (snd (load_data w)) = vars w /\
    split_cache (snd (load_data w)) = split_cache w /\
    file (snd (load_data w)) = file w.
Proof.
  unfold load_data, st_cache.
  destruct (load_data_cache w) as [|[[] d] c] eqn:Hc; simpl.
  - unfold load_data_body, read_csv, bind, emit, lift. simpl.
    destruct (file w) eqn:Hf; simpl.
    + destruct (encode_columns d); simpl;
        exists [ReadCsv "mushrooms.csv"]; repeat split; auto.
    + exists [ReadCsv "mushrooms.csv"]. repeat split; auto.
  - exists []. rewrite app_nil_r. repeat split; auto.
Qed.

Lemma load_data_indep (w w0 : world) :
  file w0 = file w ->
  load_data_cache w0 = load_data_cache w ->
  fst (load_data w0) = fst (load_data w).
Proof.
  intros Hf Hc. unfold load_data, st_cache. rewrite Hc.
  destruct (load_data_cache w) as [|[[] d] c]; simpl; [|reflexivity].
  unfold load_data_body, read_csv, bind, emit, lift. simpl. rewrite Hf.
  destruct (file w); simpl; [|reflexivity].
  destruct (encode_columns d); reflexivity.
Qed.

Lemma split_missing (permutation : nat -> list nat) (w : world)
  (df : DataFrame) :
  split_cache_sound permutation w ->
  ~ In "type" (column_names df) ->
  split permutation df w = (Err (AttributeError "type"), w).
Proof.
  intros Hs Hn.
  assert (Hb : split_body permutation df = Err (AttributeError "type")).
  { unfold split_body, getattr.
    rewrite (lookup_None "type" (columns df) Hn). reflexivity. }
  unfold split, st_cache, lift.
  destruct (assoc DataFrame_eqb df (split_cache w)) as [v|] eqn:Ha.
  - apply Hs in Ha. congruence.
  - rewrite Hb. reflexivity.
Qed.

(** The statements of [main] up to the call of [load_data]. *)
Ltac main_prologue :=
  unfold main;
  rewrite bind_eq; cbv beta iota;
  do 4 (rewrite bind_eq; unfold emit at 1; cbv beta iota);
  rewrite bind_eq.

Lemma main_without_type (permutation : nat -> list nat)
  (learn : Estimator -> DataFrame -> Series ->
           string + (DataFrame -> list value))
  (ui : session) (w : world) (df : DataFrame) :
  split_cache_sound permutation w ->
  fst (load_data w) = Ok df ->
  ~ In "type" (column_names df) ->
  exists w',
    main permutation learn ui w = (Err (AttributeError "type"), w') /\
    exists t, log w' = log w ++ t /\ forall est, ~ In (Construct est) t.
Proof.
  intros Hs Hl Hn. main_prologue.
  match goal with |- context [load_data ?w0] => set (W0 := w0) end.
  pose proof (load_data_indep w W0 eq_refl eq_refl) as Hi.
  destruct (load_data_effect W0) as (t & Hlog & Ht & _ & Hsc & _).
  destruct (load_data W0) as [[df'|e] w1] eqn:Hw1; simpl in *.
  - assert (df' = df) by congruence. subst df'.
    rewrite bind_eq.
    rewrite (split_missing permutation w1 df); [|  |exact Hn].
    + exists w1. split; [reflexivity|]. rewrite Hlog.
      rewrite <- !app_assoc. simpl. eexists. split; [reflexivity|].
      intros est Hin. simpl in Hin.
      destruct Hin as [|[|[|[|Hin]]]]; try discriminate.
      destruct Ht as [->| ->]; simpl in Hin;
        [tauto | destruct Hin as [|[]]; discriminate].
    + intros d parts. rewrite Hsc. apply Hs.
  - congruence.
Qed.

(** C4, as amended.  When the table that [load_data] yields has no
    column named "type", [split] raises Python's [AttributeError] for
    "type" at [df.type]; the script defines and raises no exception of
    its own.  [main] stops with that exception, and no model object was
    built during the run. *)
Theorem split_without_type (permutation : nat -> list nat)
  (learn : Estimator -> DataFrame -> Series ->
           string + (DataFrame -> list value))
  (ui : session) (w : world) (df : DataFrame) :
  split_cache_sound permutation w ->
  fst (load_data w) = Ok df ->
  ~ In "type" (column_names df) ->
  fst (split permutation df w) = Err (AttributeError "type") /\
  fst (main permutation learn ui w) = Err (AttributeError "type") /\
  exists t,
    log (snd (main permutation learn ui w)) = log w ++ t /\
    forall est, ~ In (Construct est) t.
Proof.
  intros Hs Hl Hn. split.
  - rewrite (split_missing permutation w df Hs Hn). reflexivity.
  - destruct (main_without_type permutation learn ui w df Hs Hl Hn)
      as (w' & -> & t & Hlog & Ht).
    split; [reflexivity|]. exists t. auto.
Qed.

(** C4 as first stated does not hold: on the table without its label
    column the exception [split] raises is an [AttributeError], and no
    exception of the script is named InvalidSchemaError. *)
Lemma split_without_type_counterexample :
  fst (split reversed no_type_encoded (fresh (Some no_type_column)))
    = Err (AttributeError "type") /\
  exception_name (AttributeError "type") = "AttributeError" /\
  (forall e, exception_name e <> "InvalidSchemaError").
Proof.
  split; [vm_compute; reflexivity|].
  split; [reflexivity|].
  intros e. destruct e; discriminate.
Qed.

Lemma split_without_type_witness :
  let w := fresh (Some no_type_column) in
  fst (split reversed no_type_encoded w) = Err (AttributeError "type") /\
  fst (main reversed by_odor forest_session w) = Err (AttributeError "type") /\
  exists t,
    log (snd (main reversed by_odor forest_session w)) = log w ++ t /\
    forall est, ~ In (Construct est) t.
Proof.
  intros w.
  apply (split_without_type reversed by_odor forest_session w
           no_type_encoded).
  - apply fresh_split_cache_sound. reflexivity.
  - vm_compute. reflexivity.
  - vm_compute. intuition discriminate.
Defined.

(** ** The metrics *)

Lemma count2_le (p : value -> value -> bool) (a b : list value) :
  count2 p a b <= length a.
Proof.
  revert b. induction a as [|x a IH]; intros [|y b]; simpl; try lia.
  specialize (IH b). destruct (p x y); lia.
Qed.

Lemma ratio_in_unit (a b : nat) : a <= b -> 0 < b -> in_unit (ratio a b).
Proof.
  intros Hab Hb. unfold in_unit, ratio, Qle. simpl.
  assert (E : Z.pos (Pos.of_nat b) = Z.of_nat b).
  { rewrite <- positive_nat_Z, Nat2Pos.id by lia. reflexivity. }
  rewrite E. lia.
Qed.

Lemma check_consistent_length_Ok (y_true y_pred : list value) (u : unit) :
  check_consistent_length y_true y_pred = Ok u -> 0 < length y_true.
Proof.
  unfold check_consistent_length.
  destruct (negb _); [congruence|].
  destruct (Nat.eqb (length y_true) 0) eqn:E; [congruence|].
  apply Nat.eqb_neq in E. lia.
Qed.

Lemma accuracy_score_in_unit (y_true y_pred : list value) (q : Q) :
  accuracy_score y_true y_pred = Ok q -> in_unit q.
Proof.
  unfold accuracy_score. try_step Hc. intros [= <-].
  apply ratio_in_unit.
  - apply count2_le.
  - eapply check_consistent_length_Ok. exact Hc.
Qed.

Lemma prf_ratio_in_unit (tp other : nat) : in_unit (prf_ratio tp other).
Proof.
  unfold prf_ratio. destruct (Nat.eqb (tp + other) 0) eqn:E.
  - unfold in_unit, Qle. simpl. lia.
  - apply Nat.eqb_neq in E. apply ratio_in_unit; lia.
Qed.

Lemma precision_score_in_unit (y_true y_pred labels : list value) (q : Q) :
  precision_score y_true y_pred labels = Ok q -> in_unit q.
Proof.
  unfold precision_score. try_step Hc. intros [= <-].
  apply prf_ratio_in_unit.
Qed.

Lemma recall_score_in_unit (y_true y_pred labels : list value) (q : Q) :
  recall_score y_true y_pred labels = Ok q -> in_unit q.
Proof.
  unfold recall_score. try_step Hc. intros [= <-].
  apply prf_ratio_in_unit.
Qed.

Lemma round_half_even_bounds (x : Q) :
  (0 <= x)%Q -> (x <= inject_Z 100)%Q ->
  (0 <= round_half_even x <= 100)%Z.
Proof.
  intros H0 H100.
  assert (Hf0 : (0 <= Qfloor x)%Z).
  { change 0%Z with (Qfloor (inject_Z 0)) at 1. rewrite Qfloor_Z.
    rewrite <- (Qfloor_Z 0). apply Qfloor_resp_le. exact H0. }
  assert (Hf100 : (Qfloor x <= 100)%Z).
  { rewrite <- (Qfloor_Z 100). apply Qfloor_resp_le. exact H100. }
  assert (Hup : (Qfloor x = 100)%Z ->
                Qcompare (x - inject_Z (Qfloor x)) (Qmake 1 2) = Lt).
  { intros E. rewrite E. apply Qlt_alt.
    apply Qle_lt_trans with (y := 0%Q); [|reflexivity].
    apply (Qplus_le_l _ _ (inject_Z 100)). ring_simplify. exact H100. }
  unfold round_half_even.
  destruct (Qcompare (x - inject_Z (Qfloor x)) (Qmake 1 2)) eqn:Ec.
  - destruct (Z.even (Qfloor x)); [lia|].
    destruct (Z.eq_dec (Qfloor x) 100) as [E|]; [|lia].
    specialize (Hup E). congruence.
  - lia.
  - destruct (Z.eq_dec (Qfloor x) 100) as [E|]; [|lia].
    specialize (Hup E). congruence.
Qed.

Lemma round2_in_unit (x : Q) : in_unit x -> in_unit (round2 x).
Proof.
  intros [H0 H1].
  assert (B : (0 <= round_half_even (x * inject_Z 100) <= 100)%Z).
  { apply round_half_even_bounds.
    - apply Qmult_le_0_compat; [exact H0 | discriminate].
    - setoid_replace (inject_Z 100) with (1 * inject_Z 100)%Q at 2
        by ring.
      apply Qmult_le_compat_r; [exact H1 | discriminate]. }
  unfold in_unit, round2, Qle. simpl. lia.
Qed.

(** ** Traces and stages *)

Lemma run_stage_app (s : stage) (t1 t2 : list event) :
  run_stage s (t1 ++ t2) =
    match run_stage s t1 with
    | Some s' => run_stage s' t2
    | None => None
    end.
Proof.
  revert s. induction t1 as [|e t1 IH]; intros s; simpl; [reflexivity|].
  destruct (advance s e); [apply IH | reflexivity].
Qed.

Lemma calm_nil : calm [].
Proof. intros s. discriminate. Qed.

Lemma calm_app (t1 t2 : list event) : calm t1 -> calm t2 -> calm (t1 ++ t2).
Proof.
  intros H1 H2 s. rewrite run_stage_app.
  destruct (run_stage s t1) as [s'|] eqn:E; [apply H2 | destruct (H1 s E)].
Qed.

Lemma advance_neutral (s : stage) (e : event) :
  neutral e = true -> advance s e = Some s.
Proof. destruct e; simpl; congruence. Qed.

Lemma calm_neutral (e : event) : neutral e = true -> calm [e].
Proof.
  intros H s. simpl. rewrite (advance_neutral s e H). discriminate.
Qed.

Lemma run_stage_rendering (est : Estimator) (ps : list plot) :
  run_stage (Fitted est) (flat_map rendering ps) = Some (Fitted est).
Proof.
  induction ps as [|p ps IH]; simpl; [reflexivity | exact IH].
Qed.

Lemma write_in_unit_rendering (ps : list plot) :
  Forall write_in_unit (flat_map rendering ps).
Proof.
  induction ps as [|p ps IH]; simpl; repeat constructor. exact IH.
Qed.

(** A trace of a Classify body that got past [fit]: construction, fit,
    neutral events, then plots. *)
Lemma calm_classified (est : Estimator) (h : string) (mid : list event)
  (ps : list plot) :
  Forall (fun e => neutral e = true) mid ->
  calm (Subheader h :: Construct est :: Fit est :: mid
          ++ flat_map rendering ps).
Proof.
  intros Hmid s. simpl.
  destruct (Estimator_eq_dec est est) as [_|n]; [|congruence].
  rewrite run_stage_app.
  assert (E : run_stage (Fitted est) mid = Some (Fitted est)).
  { induction Hmid as [|e mid He _ IH]; simpl; [reflexivity|].
    rewrite (advance_neutral _ e He). exact IH. }
  rewrite E, run_stage_rendering. discriminate.
Qed.

(** ** Rules for [behaves] *)

Lemma stable_True : stable (fun _ => True).
Proof. intros w w' _ _. exact I. Qed.

Lemma stable_tests_bound : stable tests_bound.
Proof.
  intros w w' Hv (x & y & Hx & Hy). exists x, y. rewrite Hv. auto.
Qed.

Lemma behaves_ret {A : Type} (P : world -> Prop) (a : A) :
  behaves P (ret a) (fun _ => P).
Proof.
  intros w Hw. exists []. simpl. rewrite app_nil_r.
  repeat split; auto using calm_nil.
Qed.

Lemma behaves_emit (P : world -> Prop) (e : event) :
  stable P -> neutral e = true -> write_in_unit e ->
  behaves P (emit e) (fun _ => P).
Proof.
  intros Hst Hn Hu w Hw. exists [e]. simpl.
  repeat split; auto using calm_neutral.
  eapply Hst; [|exact Hw]. reflexivity.
Qed.

Lemma behaves_bind {A B : Type} (P : world -> Prop) (m : M A)
  (Q : A -> world -> Prop) (k : A -> M B) (R : B -> world -> Prop) :
  behaves P m Q ->
  (forall a, behaves (Q a) (k a) R) ->
  behaves P (bind m k) R.
Proof.
  intros Hm Hk w Hw. destruct (Hm w Hw) as (t1 & L1 & C1 & U1 & H1).
  unfold bind. destruct (m w) as [[a|e] w1]; simpl in *.
  - destruct (Hk a w1 H1) as (t2 & L2 & C2 & U2 & H2).
    exists (t1 ++ t2). rewrite L2, L1, app_assoc.
    repeat split; auto using calm_app, Forall_app.
    apply Forall_app. auto.
  - exists t1. auto.
Qed.

Lemma behaves_if {A : Type} (P : world -> Prop) (b : bool) (m1 m2 : M A)
  (Q : A -> world -> Prop) :
  behaves P m1 Q -> behaves P m2 Q ->
  behaves P (if b then m1 else m2) Q.
Proof. destruct b; auto. Qed.

Lemma behaves_post {A : Type} (P : world -> Prop) (m : M A)
  (Q Q' : A -> world -> Prop) :
  (forall a w, Q a w -> Q' a w) -> behaves P m Q -> behaves P m Q'.
Proof.
  intros HQ Hm w Hw. destruct (Hm w Hw) as (t & L & C & U & H).
  exists t. repeat split; auto.
  destruct (fst (m w)); auto.
Qed.

(** ** No step of the pipeline raises a scope error *)

Lemma bindR_benign {A B : Type} (r : result A) (k : A -> result B) :
  raises_scope_error r = false ->
  (forall a, raises_scope_error (k a) = false) ->
  raises_scope_error (bindR r k) = false.
Proof. destruct r; simpl; auto. Qed.

Lemma take_benign {A : Type} (rows : list nat) (l : list A) :
  raises_scope_error (take rows l) = false.
Proof.
  induction rows as [|i rows IH]; simpl; [reflexivity|].
  destruct (nth_error l i); [|reflexivity].
  apply bindR_benign; auto.
Qed.

Lemma take_columns_benign (rows : list nat)
  (cols : list (string * list value)) :
  raises_scope_error (take_columns rows cols) = false.
Proof.
  induction cols as [|[n c] cols IH]; simpl; [reflexivity|].
  apply bindR_benign; [apply take_benign|]. intros c'.
  apply bindR_benign; auto.
Qed.

Lemma iloc_benign (df : DataFrame) (rows : list nat) :
  raises_scope_error (iloc df rows) = false.
Proof.
  unfold iloc. apply bindR_benign; [apply take_benign|]. intros i.
  apply bindR_benign; [apply take_columns_benign|]. reflexivity.
Qed.

Lemma iloc_series_benign (s : Series) (rows : list nat) :
  raises_scope_error (iloc_series s rows) = false.
Proof.
  unfold iloc_series. apply bindR_benign; [apply take_benign|]. intros i.
  apply bindR_benign; [apply take_benign|]. reflexivity.
Qed.

Lemma split_body_benign (permutation : nat -> list nat) (df : DataFrame) :
  raises_scope_error (split_body permutation df) = false.
Proof.
  unfold split_body. apply bindR_benign.
  { unfold getattr. destruct (lookup _ _); reflexivity. }
  intros y. apply bindR_benign.
  { unfold drop. destruct (lookup _ _); reflexivity. }
  intros x. unfold train_test_split.
  destruct (negb _); [reflexivity|].
  apply bindR_benign.
  { unfold validate_shuffle_split. destruct (Nat.eqb _ _); reflexivity. }
  intros sizes.
  apply bindR_benign; [apply iloc_benign|]. intros x1.
  apply bindR_benign; [apply iloc_benign|]. intros x2.
  apply bindR_benign; [apply iloc_series_benign|]. intros y1.
  apply bindR_benign; [apply iloc_series_benign|]. reflexivity.
Qed.

Lemma encode_column_benign (d : DataFrame) (col : string) :
  raises_scope_error (encode_column d col) = false.
Proof.
  unfold encode_column. apply bindR_benign.
  { unfold getitem. destruct (lookup _ _); reflexivity. }
  intros c. apply bindR_benign; [|reflexivity].
  unfold fit_transform. destruct (uniform c); reflexivity.
Qed.

Lemma encode_columns_benign (data : DataFrame) :
  raises_scope_error (encode_columns data) = false.
Proof.
  unfold encode_columns.
  assert (H : forall names acc,
             raises_scope_error acc = false ->
             raises_scope_error
               (fold_left (fun acc col => try d <- acc; encode_column d col)
                          names acc) = false).
  { induction names as [|n names IH]; intros acc Hacc; simpl; [exact Hacc|].
    apply IH. apply bindR_benign; [exact Hacc|].
    intros d. apply encode_column_benign. }
  apply H. reflexivity.
Qed.

Lemma accuracy_score_benign (y_true y_pred : list value) :
  raises_scope_error (accuracy_score y_true y_pred) = false.
Proof.
  unfold accuracy_score, check_consistent_length.
  destruct (negb _); [reflexivity|]. destruct (Nat.eqb _ _); reflexivity.
Qed.

Lemma check_set_wise_labels_benign (y_true y_pred labels : list value) :
  raises_scope_error (check_set_wise_labels y_true y_pred labels) = false.
Proof.
  unfold check_set_wise_labels. apply bindR_benign.
  { unfold check_consistent_length.
    destruct (negb _); [reflexivity|]. destruct (Nat.eqb _ _); reflexivity. }
  intros _. destruct (negb _); [reflexivity|].
  destruct (Nat.ltb _ _); [reflexivity|].
  destruct (_ && _); reflexivity.
Qed.

Lemma precision_score_benign (y_true y_pred labels : list value) :
  raises_scope_error (precision_score y_true y_pred labels) = false.
Proof.
  unfold precision_score.
  apply bindR_benign; [apply check_set_wise_labels_benign | reflexivity].
Qed.

Lemma recall_score_benign (y_true y_pred labels : list value) :
  raises_scope_error (recall_score y_true y_pred labels) = false.
Proof.
  unfold recall_score.
  apply bindR_benign; [apply check_set_wise_labels_benign | reflexivity].
Qed.

(** ** The pieces of main behave *)

Lemma load_data_behaves :
  behaves (fun _ => True) load_data (fun _ _ => True).
Proof.
  intros w _. destruct (load_data_effect w) as (t & L & Ht & _).
  exists t. split; [exact L|].
  split; [destruct Ht as [->| ->];
          [apply calm_nil | apply calm_neutral; reflexivity]|].
  split; [destruct Ht as [->| ->]; repeat constructor|].
  unfold load_data, st_cache.
  destruct (load_data_cache w) as [|[[] d] c]; simpl; [|exact I].
  unfold load_data_body, read_csv, bind, emit, lift. simpl.
  destruct (file w); simpl; [|reflexivity].
  pose proof (encode_columns_benign d) as Hb.
  destruct (encode_columns d); simpl; [exact I | exact Hb].
Qed.

Lemma split_behaves (permutation : nat -> list nat) (df : DataFrame) :
  behaves (fun _ => True) (split permutation df) (fun _ _ => True).
Proof.
  intros w _. exists []. rewrite app_nil_r.
  unfold split, st_cache, lift.
  destruct (assoc DataFrame_eqb df (split_cache w)); simpl.
  - repeat split; auto using calm_nil.
  - pose proof (split_body_benign permutation df) as Hb.
    destruct (split_body permutation df); simpl;
      repeat split; auto using calm_nil.
Qed.

(** ** The Classify body *)

Lemma calm_fitted (est : Estimator) (h : string) (mid : list event) :
  Forall (fun e => neutral e = true) mid ->
  calm (Subheader h :: Construct est :: Fit est :: mid).
Proof.
  intros H. pose proof (calm_classified est h mid [] H) as C.
  simpl in C. rewrite app_nil_r in C. exact C.
Qed.

Ltac run_script H :=
  cbv beta iota delta
    [classify construct model_fit model_score model_predict
     call_precision_score call_recall_score bind emit assign_model
     read_model raise ret lift with_log with_vars vars model fitted
     estimator log x_test y_test file load_data_cache split_cache figure]
    in H.

(** Close a case in which the Classify body stopped at an exception. *)
Ltac stopped H :=
  injection H as <- <-; simpl;
  rewrite <- ?app_assoc; simpl;
  eexists; split; [reflexivity|];
  split; [first [apply calm_fitted; repeat constructor
                | intros s; simpl; discriminate]|];
  split; [repeat (apply Forall_cons; [simpl; auto using round2_in_unit|]);
          apply Forall_nil|];
  auto.

Lemma classify_behaves
  (learn : Estimator -> DataFrame -> Series ->
           string + (DataFrame -> list value))
  (header : string) (est : Estimator) (x_train xt : DataFrame)
  (y_train yt : Series) (cn : list value) (metrics : list string) :
  behaves tests_bound
    (classify learn header est x_train xt y_train yt cn metrics)
    (fun _ => tests_bound).
Proof.
  intros w (x & y & Hx & Hy).
  destruct w as [fi lc sc fg [mo xt' yt'] lg]. simpl in Hx, Hy. subst xt' yt'.
  destruct (classify _ _ _ _ _ _ _ _ _ _) as [r w'] eqn:Hrun.
  run_script Hrun. simpl fst. simpl snd.
  destruct (learn est x_train y_train) as [msg|f]; [stopped Hrun|].
  run_script Hrun.
  pose proof (accuracy_score_benign (s_values yt) (f xt)) as Ba.
  pose proof (accuracy_score_in_unit (s_values yt) (f xt)) as Ua.
  destruct (accuracy_score (s_values yt) (f xt)) as [acc|e];
    [specialize (Ua acc eq_refl) | stopped Hrun].
  run_script Hrun.
  pose proof (precision_score_benign (s_values yt) (f xt) cn) as Bp.
  pose proof (precision_score_in_unit (s_values yt) (f xt) cn) as Up.
  destruct (precision_score (s_values yt) (f xt) cn) as [pr|e];
    [specialize (Up pr eq_refl) | stopped Hrun].
  run_script Hrun.
  pose proof (recall_score_benign (s_values yt) (f xt) cn) as Br.
  pose proof (recall_score_in_unit (s_values yt) (f xt) cn) as Ur.
  destruct (recall_score (s_values yt) (f xt) cn) as [re|e];
    [specialize (Ur re eq_refl) | stopped Hrun].
  run_script Hrun.
  match type of Hrun with plot_metrics _ ?W = _ => set (W0 := W) in * end.
  assert (Hr : ready W0).
  { exists (mkModel est (Some f)), f, x, y. split; reflexivity. }
  destruct (plot_metrics_run metrics W0 Hr) as (w1 & H1 & L1 & V1 & _).
  rewrite H1 in Hrun. injection Hrun as <- <-.
  rewrite L1. unfold W0. simpl.
  rewrite <- ?app_assoc. simpl.
  eexists. split; [reflexivity|].
  split.
  { apply (calm_classified est header
             [Write "Accuracy: " (round2 acc);
              PrecisionScore (s_values yt) (f xt) cn;
              Write "Precision: " (round2 pr);
              RecallScore (s_values yt) (f xt) cn;
              Write "Recall: " (round2 re)]).
    repeat constructor. }
  split.
  { repeat (apply Forall_cons; [simpl; auto using round2_in_unit|]).
    apply write_in_unit_rendering. }
  exists x, y. rewrite V1. split; reflexivity.
Qed.

(** ** main behaves *)

Ltac emit_step P_stable :=
  eapply behaves_bind;
  [apply behaves_emit; [apply P_stable | reflexivity | exact I]
  |intro; cbv beta].

Section BranchesBehave.

Variable learn :
  Estimator -> DataFrame -> Series -> string + (DataFrame -> list value).

Variable ui : session.

Variables x_train x_test : DataFrame.

Variables y_train y_test : Series.

Lemma svm_branch_behaves :
  behaves tests_bound
    (svm_branch learn ui x_train x_test y_train y_test class_names)
    (fun _ => tests_bound).
Proof.
  unfold svm_branch. emit_step stable_tests_bound.
  apply behaves_if; [apply classify_behaves | apply behaves_ret].
Qed.

Lemma logistic_branch_behaves :
  behaves tests_bound
    (logistic_branch learn ui x_train x_test y_train y_test class_names)
    (fun _ => tests_bound).
Proof.
  unfold logistic_branch. emit_step stable_tests_bound.
  apply behaves_if; [apply classify_behaves | apply behaves_ret].
Qed.

Lemma forest_branch_behaves :
  behaves tests_bound
    (forest_branch learn ui x_train x_test y_train y_test class_names)
    (fun _ => tests_bound).
Proof.
  unfold forest_branch. emit_step stable_tests_bound.
  apply behaves_if; [apply classify_behaves | apply behaves_ret].
Qed.

End BranchesBehave.

Section MainBehaves.

Variable permutation : nat -> list nat.

Variable learn :
  Estimator -> DataFrame -> Series -> string + (DataFrame -> list value).

Variable ui : session.

Lemma main_behaves :
  behaves (fun _ => True) (main permutation learn ui) (fun _ _ => True).
Proof.
  unfold main.
  eapply behaves_bind with (Q := fun _ _ => True).
  { intros w _. exists []. simpl. rewrite app_nil_r.
    repeat split; auto using calm_nil. }
  intros _.
  do 4 emit_step stable_True.
  eapply behaves_bind; [apply load_data_behaves | intros df; cbv beta].
  eapply behaves_bind; [apply split_behaves|].
  intros [[[xtr xte] ytr] yte]; cbv beta.
  eapply behaves_bind with (Q := fun _ => tests_bound).
  { intros w _. exists []. simpl. rewrite app_nil_r.
    repeat split; auto using calm_nil.
    exists xte, yte. split; reflexivity. }
  intros _.
  emit_step stable_tests_bound.
  eapply behaves_bind;
    [apply behaves_if; [apply svm_branch_behaves | apply behaves_ret]
    |intro; cbv beta].
  eapply behaves_bind;
    [apply behaves_if; [apply logistic_branch_behaves | apply behaves_ret]
    |intro; cbv beta].
  eapply behaves_bind;
    [apply behaves_if; [apply forest_branch_behaves | apply behaves_ret]
    |intro; cbv beta].
  apply behaves_post with (Q := fun _ => tests_bound); [auto|].
  apply behaves_if; [|apply behaves_ret].
  emit_step stable_tests_bound.
  apply behaves_emit; [apply stable_tests_bound | reflexivity | exact I].
Qed.

End MainBehaves.

(** ** What the stages say about a trace *)

Lemma run_stage_before_plot (t1 t2 : list event) (fig : option plot)
  (s : stage) :
  run_stage s (t1 ++ Pyplot fig :: t2) <> None ->
  exists est p, run_stage s t1 = Some (Fitted est) /\ fig = Some p.
Proof.
  rewrite run_stage_app.
  destruct (run_stage s t1) as [s1|]; [|congruence].
  simpl. destruct s1 as [|est|est]; try congruence.
  destruct fig as [p|]; [|congruence].
  intros _. eauto.
Qed.

Lemma run_stage_history (est : Estimator) (t : list event) :
  forall s, run_stage s t = Some (Fitted est) ->
    s = Fitted est \/
    (s = Unfit est /\ exists b c, t = b ++ Fit est :: c) \/
    (exists a b c, t = a ++ Construct est :: b ++ Fit est :: c).
Proof.
  induction t as [|e t IH]; intros s H; simpl in H.
  - left. congruence.
  - destruct (advance s e) as [s1|] eqn:Ha; [|discriminate].
    specialize (IH s1 H).
    assert (Hlater :
      (exists a b c, t = a ++ Construct est :: b ++ Fit est :: c) ->
      exists a b c, e :: t = a ++ Construct est :: b ++ Fit est :: c).
    { intros (a & b & c & ->). exists (e :: a), b, c. reflexivity. }
    destruct IH as [E|[[E (b & c & Ht)]|IH]]; [| |auto].
    + (* the stage after [e] is already Fitted est *)
      subst s1.
      destruct e as [?|?|?|?|?|?|? ?|?|fig|?|e1|e1|? ? ?|? ? ?];
        simpl in Ha;
        try (injection Ha as ->; auto; fail); try discriminate.
      * destruct s; try discriminate. destruct fig; try discriminate.
        injection Ha as ->. auto.
      * destruct s as [|est'|est']; try discriminate.
        destruct (Estimator_eq_dec e1 est'); [|discriminate].
        injection Ha as ->. subst est'.
        right. left. split; [reflexivity|]. exists [], t. reflexivity.
    + (* the stage after [e] is Unfit est, and a fit follows *)
      subst s1 t.
      destruct e as [?|?|?|?|?|?|? ?|?|fig|?|e1|e1|? ? ?|? ? ?];
        simpl in Ha;
        try (injection Ha as ->; right; left; split; [reflexivity|];
             eexists (_ :: b), c; reflexivity).
      * destruct s; try discriminate. destruct fig; discriminate.
      * injection Ha as ->. right. right. exists [], b, c. reflexivity.
      * destruct s as [|est'|est']; try discriminate.
        destruct (Estimator_eq_dec e1 est'); discriminate.
Qed.

(** C9.  Whatever the user set and whatever the process has cached, a
    run of [main] never fails on an unbound variable or on a model that
    is not fitted, and every plot it renders comes, within that run,
    after the construction of a model and after the fit of that same
    model: [plot_metrics] finds [model], [x_test] and [y_test] bound and
    the model fitted whenever it uses them. *)
Theorem plots_only_after_fit (permutation : nat -> list nat)
  (learn : Estimator -> DataFrame -> Series ->
           string + (DataFrame -> list value))
  (ui : session) (w : world) :
  raises_scope_error (fst (main permutation learn ui w)) = false /\
  exists t,
    log (snd (main permutation learn ui w)) = log w ++ t /\
    forall t1 fig t2, t = t1 ++ Pyplot fig :: t2 ->
      (exists p, fig = Some p) /\
      exists est a b c, t1 = a ++ Construct est :: b ++ Fit est :: c.
Proof.
  destruct (main_behaves permutation learn ui w I) as (t & L & C & _ & H).
  split.
  - destruct (fst (main permutation learn ui w)); [reflexivity | exact H].
  - exists t. split; [exact L|]. intros t1 fig t2 ->.
    destruct (run_stage_before_plot t1 t2 fig NoModel (C NoModel))
      as (est & p & Hs & ->).
    split; [eauto|]. exists est.
    destruct (run_stage_history est t1 NoModel Hs)
      as [E|[[E _]|Hh]]; [discriminate | discriminate | exact Hh].
Qed.

(** C7.  Every number a run of [main] displays (the accuracy, the
    precision and the recall of a Classify action, after rounding) lies
    in [[0, 1]], for each of the three classifiers. *)
Theorem displayed_metrics_in_unit (permutation : nat -> list nat)
  (learn : Estimator -> DataFrame -> Series ->
           string + (DataFrame -> list value))
  (ui : session) (w : world) :
  exists t,
    log (snd (main permutation learn ui w)) = log w ++ t /\
    forall label x, In (Write label x) t -> (0 <= x)%Q /\ (x <= 1)%Q.
Proof.
  destruct (main_behaves permutation learn ui w I) as (t & L & _ & U & _).
  exists t. split; [exact L|]. intros label x Hin.
  rewrite Forall_forall in U. exact (U _ Hin).
Qed.

(** The three numbers of a Random Forest run on the ten mushrooms. *)
Example forest_run_displays :
  let t := log (snd (main reversed by_odor forest_session
                       (fresh (Some ten_mushrooms)))) in
  In (Write "Accuracy: " (Qmake 100 100)) t /\
  In (Write "Precision: " (Qmake 100 100)) t /\
  In (Write "Recall: " (Qmake 100 100)) t.
Proof.
  vm_compute. intuition.
Qed.

(** ** Where the script departs from its description *)

(** C1.  On the ten mushrooms, the precision and the recall are asked for
    with [labels] being the two display names, which are strings, while
    the test labels they are computed on are the integer codes 0 and 1:
    the classes present in [y_test] are [[0; 1]], not the [labels]
    argument, and neither name occurs in [y_test]. *)
Theorem score_labels_are_names :
  let t := log (snd (main reversed by_odor forest_session
                       (fresh (Some ten_mushrooms)))) in
  let y := s_values ten_y_test in
  In (PrecisionScore y y [VStr "edible"; VStr "poisonous"]) t /\
  In (RecallScore y y [VStr "edible"; VStr "poisonous"]) t /\
  classes_ y = [VInt 0; VInt 1] /\
  classes_ y <> [VStr "edible"; VStr "poisonous"] /\
  ~ In (VStr "edible") y /\ ~ In (VStr "poisonous") y.
Proof.
  vm_compute. intuition discriminate.
Qed.

(** C2.  With Random Forest selected and the bootstrap radio on its
    "False" option, the model is built with the string "False" as its
    [bootstrap] argument: not the boolean [False], and a value Python
    counts as true. *)
Theorem bootstrap_is_a_string :
  radio ["True"; "False"] (bootstrap_choice forest_session) = "False" /\
  In (Construct (RandomForestClassifier 100 1 (PyStr "False") (-1)))
     (log (snd (main reversed by_odor forest_session
                  (fresh (Some ten_mushrooms))))) /\
  PyStr "False" <> PyBool false /\
  truth (PyStr "False") = true.
Proof.
  vm_compute. intuition discriminate.
Qed.

(** * Further properties of the script *)

(** ** What split hands out *)

Lemma take_columns_names (rows : list nat)
  (cols cs : list (string * list value)) :
  take_columns rows cols = Ok cs -> map fst cs = map fst cols.
Proof.
  revert cs. induction cols as [|[n c] cols IH]; simpl; intros cs.
  - intros [= <-]. reflexivity.
  - try_step Hc. try_step Hr. intros [= <-]. simpl. f_equal.
    apply IH. reflexivity.
Qed.

Lemma iloc_names (df d : DataFrame) (rows : list nat) :
  iloc df rows = Ok d -> column_names d = column_names df.
Proof.
  unfold iloc. try_step Hi. try_step Hc. intros [= <-].
  unfold column_names. simpl. eapply take_columns_names. exact Hc.
Qed.

Lemma drop_names (df x : DataFrame) :
  drop df "type" = Ok x -> column_names x = feature_names df.
Proof.
  unfold drop, feature_names, column_names.
  destruct (lookup "type" (columns df)); [|discriminate].
  intros [= <-]. simpl.
  induction (columns df) as [|[n c] cols IH]; simpl; [reflexivity|].
  destruct (negb (String.eqb n "type")); simpl; congruence.
Qed.

Lemma feature_names_no_type (df : DataFrame) :
  ~ In "type" (feature_names df).
Proof.
  unfold feature_names. intros H. apply filter_In in H.
  destruct H as [_ H]. rewrite String.eqb_refl in H. discriminate.
Qed.

Lemma split_body_parts (permutation : nat -> list nat)
  (df x_train x_test : DataFrame) (y_train y_test : Series) :
  split_body permutation df = Ok (x_train, x_test, y_train, y_test) ->
  exists x y ind_train ind_test,
    getattr df "type" = Ok y /\
    drop df "type" = Ok x /\
    ind_test = firstn (n_test_of (len x)) (permutation (len x)) /\
    ind_train = firstn (len x - n_test_of (len x))
                  (skipn (n_test_of (len x)) (permutation (len x))) /\
    len x - n_test_of (len x) <> 0 /\
    iloc x ind_train = Ok x_train /\
    iloc x ind_test = Ok x_test /\
    iloc_series y ind_train = Ok y_train /\
    iloc_series y ind_test = Ok y_test.
Proof.
  unfold split_body. try_step Hy. try_step Hx.
  unfold train_test_split, validate_shuffle_split.
  destruct (negb (Nat.eqb (len a0) (length (s_index a)))); [discriminate|].
  destruct (Nat.eqb (len a0 - n_test_of (len a0)) 0) eqn:Hz;
    cbn [bindR fst snd]; [discriminate|].
  apply Nat.eqb_neq in Hz.
  try_step H1. try_step H2. try_step H3. try_step H4.
  intros [= <- <- <- <-].
  exists a0, a. do 2 eexists. repeat split; eauto.
Qed.

(** X1.  The feature tables that [split] returns have the columns of the
    input other than "type", in the input's order; the label column is in
    neither. *)
Theorem split_features_drop_type (permutation : nat -> list nat)
  (w : world) (df x_train x_test : DataFrame) (y_train y_test : Series) :
  split_cache_sound permutation w ->
  fst (split permutation df w) = Ok (x_train, x_test, y_train, y_test) ->
  column_names x_train = feature_names df /\
  column_names x_test = feature_names df /\
  ~ In "type" (column_names x_train) /\
  ~ In "type" (column_names x_test).
Proof.
  intros Hs H. apply (split_sound permutation w) in H; [|exact Hs].
  apply split_body_parts in H.
  destruct H as (x & y & itr & ite & _ & Hx & _ & _ & _ & H1 & H2 & _).
  apply iloc_names in H1, H2. apply drop_names in Hx.
  rewrite H1, H2, Hx.
  repeat split; auto using feature_names_no_type.
Qed.

Lemma split_features_drop_type_witness :
  column_names ten_x_train = feature_names ten_encoded /\
  column_names ten_x_test = feature_names ten_encoded /\
  ~ In "type" (column_names ten_x_train) /\
  ~ In "type" (column_names ten_x_test).
Proof.
  apply (split_features_drop_type reversed ten_loaded ten_encoded
           ten_x_train ten_x_test ten_y_train ten_y_test).
  - apply fresh_split_cache_sound. reflexivity.
  - vm_compute. reflexivity.
Defined.

Lemma take_Ok_map {A : Type} (rows : list nat) (l r : list A) (d : A) :
  take rows l = Ok r -> r = map (fun i => nth i l d) rows.
Proof.
  revert r. induction rows as [|i rows IH]; simpl; intros r.
  - intros [= <-]. reflexivity.
  - destruct (nth_error l i) as [a|] eqn:Hi; [|discriminate].
    try_step Hr. intros [= <-].
    rewrite (IH _ eq_refl). f_equal.
    symmetry. apply nth_error_nth. exact Hi.
Qed.

Lemma map_nth_seq {A : Type} (l : list A) (d : A) :
  map (fun i => nth i l d) (seq 0 (length l)) = l.
Proof.
  induction l as [|a l IH]; simpl; [reflexivity|].
  f_equal. rewrite <- seq_shift, map_map. exact IH.
Qed.

Lemma take_app {A : Type} (r1 r2 : list nat) (l a b : list A) :
  take r1 l = Ok a -> take r2 l = Ok b -> take (r1 ++ r2) l = Ok (a ++ b).
Proof.
  revert a. induction r1 as [|i r1 IH]; simpl; intros a.
  - intros [= <-]. auto.
  - destruct (nth_error l i); [|discriminate].
    try_step Hr. intros [= <-] Hb.
    rewrite (IH _ eq_refl Hb). reflexivity.
Qed.

Section SplitRows.

Variable permutation : nat -> list nat.

Hypothesis permutation_spec :
  forall n, Permutation (permutation n) (seq 0 n).

Lemma split_indices (n : nat) :
  firstn (n_test_of n) (permutation n)
  ++ firstn (n - n_test_of n) (skipn (n_test_of n) (permutation n))
  = permutation n.
Proof.
  rewrite (firstn_all2 (n := n - n_test_of n)).
  - apply firstn_skipn.
  - rewrite length_skipn, (permutation_length permutation permutation_spec).
    lia.
Qed.

(** X2.  [split] deals the rows of the table out: the row labels of the
    test part followed by those of the training part are the row labels
    of the table in another order, so every row goes to exactly one of
    the two parts. *)
Theorem split_rows_partition (w : world)
  (df x_train x_test : DataFrame) (y_train y_test : Series) :
  split_cache_sound permutation w ->
  fst (split permutation df w) = Ok (x_train, x_test, y_train, y_test) ->
  Permutation (index x_test ++ index x_train) (index df).
Proof.
  intros Hs H. apply (split_sound permutation w) in H; [|exact Hs].
  apply split_body_parts in H.
  destruct H as (x & y & itr & ite & _ & Hx & -> & -> & _ & H1 & H2 & _).
  assert (Hix : index x = index df).
  { unfold drop in Hx. destruct (lookup _ _); [|discriminate].
    injection Hx as <-. reflexivity. }
  unfold iloc in H1, H2. revert H1 H2.
  try_step T1. try_step C1. intros [= <-].
  try_step T2. try_step C2. intros [= <-]. simpl.
  pose proof (take_app _ _ _ _ _ T2 T1) as T.
  unfold len in T. rewrite split_indices in T.
  rewrite (take_Ok_map _ _ _ 0 T), <- Hix.
  rewrite <- (map_nth_seq (index x) 0) at 2.
  apply Permutation_map, permutation_spec.
Qed.

End SplitRows.

Lemma split_rows_partition_witness :
  Permutation (index ten_x_test ++ index ten_x_train) (index ten_encoded).
Proof.
  apply (split_rows_partition reversed reversed_spec ten_loaded ten_encoded
           ten_x_train ten_x_test ten_y_train ten_y_test).
  - apply fresh_split_cache_sound. reflexivity.
  - vm_compute. reflexivity.
Defined.

(** X3.  Features and labels are cut at the same rows: each label vector
    carries the row labels of the feature table it is returned with, and
    has one value per row of it. *)
Theorem split_labels_aligned (permutation : nat -> list nat)
  (w : world) (df x_train x_test : DataFrame) (y_train y_test : Series) :
  split_cache_sound permutation w ->
  fst (split permutation df w) = Ok (x_train, x_test, y_train, y_test) ->
  s_index y_train = index x_train /\
  s_index y_test = index x_test /\
  length (s_values y_train) = len x_train /\
  length (s_values y_test) = len x_test.
Proof.
  intros Hs H. apply (split_sound permutation w) in H; [|exact Hs].
  apply split_body_parts in H.
  destruct H as (x & y & itr & ite & Hy & Hx & _ & _ & _
                 & H1 & H2 & H3 & H4).
  assert (Hi : s_index y = index x).
  { unfold getattr in Hy. unfold drop in Hx.
    destruct (lookup _ _); [|discriminate].
    injection Hy as <-. injection Hx as <-. reflexivity. }
  pose proof (iloc_len _ _ _ H1) as L1.
  pose proof (iloc_len _ _ _ H2) as L2.
  unfold iloc in H1, H2. unfold iloc_series in H3, H4.
  rewrite Hi in H3, H4. revert H1 H2 H3 H4.
  try_step T1. try_step C1. intros [= <-].
  try_step T2. try_step C2. intros [= <-].
  try_step V1. intros [= <-]. try_step V2. intros [= <-].
  simpl. apply take_length in V1, V2.
  repeat split; congruence.
Qed.

Lemma split_labels_aligned_witness :
  s_index ten_y_train = index ten_x_train /\
  s_index ten_y_test = index ten_x_test /\
  length (s_values ten_y_train) = len ten_x_train /\
  length (s_values ten_y_test) = len ten_x_test.
Proof.
  apply (split_labels_aligned reversed ten_loaded ten_encoded
           ten_x_train ten_x_test ten_y_train ten_y_test).
  - apply fresh_split_cache_sound. reflexivity.
  - vm_compute. reflexivity.
Defined.

Lemma lookup_In (name : string) (cols : list (string * list value))
  (c : list value) :
  lookup name cols = Some c -> In (name, c) cols.
Proof.
  induction cols as [|[n c0] cols IH]; simpl; [discriminate|].
  destruct (String.eqb_spec n name) as [->|_].
  - intros [= ->]. now left.
  - intros H. right. auto.
Qed.

Lemma take_total {A : Type} (rows : list nat) (l : list A) :
  Forall (fun i => i < length l) rows -> exists r, take rows l = Ok r.
Proof.
  induction 1 as [|i rows Hi _ [r IH]]; simpl; [eauto|].
  destruct (nth_error l i) as [a|] eqn:E.
  - rewrite IH. simpl. eauto.
  - apply nth_error_None in E. lia.
Qed.

Lemma take_columns_total (rows : list nat) (n : nat)
  (cols : list (string * list value)) :
  Forall (fun i => i < n) rows ->
  Forall (fun nc => length (snd nc) = n) cols ->
  exists cs, take_columns rows cols = Ok cs.
Proof.
  intros Hrows. induction 1 as [|[name c] cols Hc _ [cs IH]]; simpl;
    [eauto|].
  simpl in Hc. subst n. destruct (take_total rows c Hrows) as [c' ->].
  rewrite IH. simpl. eauto.
Qed.

Lemma In_firstn_list {A : Type} (n : nat) (l : list A) (x : A) :
  In x (firstn n l) -> In x l.
Proof.
  intros H. rewrite <- (firstn_skipn n l). apply in_or_app. now left.
Qed.

Lemma In_skipn_list {A : Type} (n : nat) (l : list A) (x : A) :
  In x (skipn n l) -> In x l.
Proof.
  intros H. rewrite <- (firstn_skipn n l). apply in_or_app. now right.
Qed.

Section SplitReturns.

Variable permutation : nat -> list nat.

Hypothesis permutation_spec :
  forall n, Permutation (permutation n) (seq 0 n).

Lemma permutation_below (n : nat) (l : list nat) :
  incl l (permutation n) -> Forall (fun i => i < n) l.
Proof.
  intros Hl. apply Forall_forall. intros i Hi.
  apply Hl in Hi.
  apply (Permutation_in _ (permutation_spec n)) in Hi.
  apply in_seq in Hi. lia.
Qed.

Lemma split_body_total (df : DataFrame) :
  well_formed df ->
  In "type" (column_names df) ->
  2 <= len df ->
  exists parts,
    split_body permutation df = Ok parts /\
    forall w, split_cache_sound permutation w ->
      fst (split permutation df w) = Ok parts.
Proof.
  intros Hwf Hty Hn.
  assert (Hlk : exists c, lookup "type" (columns df) = Some c).
  { destruct (lookup "type" (columns df)) as [c|] eqn:E; [eauto|].
    exfalso. revert Hty E. unfold column_names.
    induction (columns df) as [|[n c] cols IH]; simpl; [tauto|].
    destruct (String.eqb_spec n "type") as [->|Hne]; [discriminate|].
    intros [H|H]; [congruence | auto]. }
  destruct Hlk as [c Hc].
  assert (Hlen : length c = len df).
  { unfold well_formed in Hwf. rewrite Forall_forall in Hwf.
    apply (Hwf ("type", c)). apply lookup_In. exact Hc. }
  pose proof (n_test_of_ceil (len df)) as Hceil.
  set (ite := firstn (n_test_of (len df)) (permutation (len df))).
  set (itr := firstn (len df - n_test_of (len df))
                (skipn (n_test_of (len df)) (permutation (len df)))).
  assert (Bte : Forall (fun i => i < len df) ite).
  { apply permutation_below. intros i Hi. eapply In_firstn_list. exact Hi. }
  assert (Btr : Forall (fun i => i < len df) itr).
  { apply permutation_below. intros i Hi.
    apply In_firstn_list in Hi. eapply In_skipn_list. exact Hi. }
  set (xcols := filter (fun nc => negb (String.eqb (fst nc) "type"))
                  (columns df)).
  assert (Hx : Forall (fun nc : string * list value =>
                         length (snd nc) = len df) xcols).
  { apply Forall_forall. intros nc Hnc. apply filter_In in Hnc.
    unfold well_formed in Hwf. rewrite Forall_forall in Hwf.
    apply Hwf. tauto. }
  destruct (take_total itr (index df) Btr) as [i1 T1].
  destruct (take_total ite (index df) Bte) as [i2 T2].
  destruct (take_columns_total itr _ xcols Btr Hx) as [c1 C1].
  destruct (take_columns_total ite _ xcols Bte Hx) as [c2 C2].
  rewrite <- Hlen in Btr, Bte.
  destruct (take_total itr c Btr) as [v1 V1].
  destruct (take_total ite c Bte) as [v2 V2].
  assert (Hbody : split_body permutation df =
            Ok (mkDataFrame i1 c1, mkDataFrame i2 c2,
                mkSeries i1 v1, mkSeries i2 v2)).
  { unfold split_body, getattr, drop. rewrite Hc. cbn [bindR].
    unfold train_test_split, validate_shuffle_split, len. cbn [index s_index].
    rewrite Nat.eqb_refl. cbn [negb].
    fold (len df).
    destruct (Nat.eqb (len df - n_test_of (len df)) 0) eqn:Hz.
    { apply Nat.eqb_eq in Hz. lia. }
    cbn [bindR fst snd]. unfold iloc, iloc_series.
    cbn [index columns s_index s_values].
    fold ite. fold itr. fold xcols.
    rewrite T1, T2, C1, C2, V1, V2. reflexivity. }
  eexists. split; [exact Hbody|].
  intros w Hs. unfold split, st_cache, lift.
  destruct (assoc DataFrame_eqb df (split_cache w)) as [v|] eqn:Ha; simpl.
  - apply Hs in Ha. congruence.
  - rewrite Hbody. reflexivity.
Qed.

(** X4.  On a table whose columns all have one cell per row, that has a
    "type" column and at least two rows, [split] returns the four
    parts: it raises neither for the schema, nor for the sizes, nor for
    a row position. *)
Theorem split_returns (df : DataFrame) :
  well_formed df ->
  In "type" (column_names df) ->
  2 <= len df ->
  exists parts,
    split_body permutation df = Ok parts /\
    forall w, split_cache_sound permutation w ->
      fst (split permutation df w) = Ok parts.
Proof.
  intros Hwf Hty Hn. apply split_body_total; assumption.
Qed.

End SplitReturns.

Lemma ten_encoded_well_formed : well_formed ten_encoded.
Proof. unfold well_formed. repeat constructor. Qed.

Lemma split_returns_witness :
  exists parts,
    split_body reversed ten_encoded = Ok parts /\
    forall w, split_cache_sound reversed w ->
      fst (split reversed ten_encoded w) = Ok parts.
Proof.
  apply (split_returns reversed reversed_spec ten_encoded).
  - exact ten_encoded_well_formed.
  - simpl. auto.
  - unfold len. simpl. lia.
Defined.

(** X5.  A table with a "type" column and fewer than two rows cannot be
    split: the training part would be empty and [train_test_split]
    raises [ValueError]. *)
Theorem split_too_few_rows (permutation : nat -> list nat)
  (df : DataFrame) :
  In "type" (column_names df) ->
  len df <= 1 ->
  split_body permutation df =
    Err (ValueError "the resulting train set will be empty").
Proof.
  intros Hty Hn.
  destruct (lookup "type" (columns df)) as [c|] eqn:Hc.
  - unfold split_body, getattr, drop. rewrite Hc. cbn [bindR].
    unfold train_test_split, validate_shuffle_split, len.
    cbn [index s_index]. rewrite Nat.eqb_refl. cbn [negb].
    fold (len df).
    destruct (len df) as [|[|n]]; [reflexivity | reflexivity | lia].
  - exfalso. revert Hty Hc. unfold column_names.
    induction (columns df) as [|[n c] cols IH]; simpl; [tauto|].
    destruct (String.eqb_spec n "type") as [->|Hne]; [discriminate|].
    intros [H|H]; [congruence | auto].
Qed.

Lemma split_too_few_rows_witness :
  split_body reversed one_mushroom =
    Err (ValueError "the resulting train set will be empty").
Proof.
  apply (split_too_few_rows reversed one_mushroom).
  - simpl. auto.
  - unfold len. simpl. lia.
Defined.

(** ** Computations that leave the caches alone *)

Lemma framed_ret {A : Type} (E : event -> Prop) (a : A) : framed E (ret a).
Proof.
  intros w. simpl. repeat split. exists []. rewrite app_nil_r. auto.
Qed.

Lemma framed_emit (E : event -> Prop) (e : event) :
  E e -> framed E (emit e).
Proof.
  intros He w. simpl. repeat split. exists [e]. auto.
Qed.

Lemma framed_bind {A B : Type} (E : event -> Prop) (m : M A)
  (k : A -> M B) :
  framed E m -> (forall a, framed E (k a)) -> framed E (bind m k).
Proof.
  intros Hm Hk w. destruct (Hm w) as (F1 & L1 & S1 & t1 & T1 & E1).
  unfold bind. destruct (m w) as [[a|e] w1]; simpl in *.
  - destruct (Hk a w1) as (F2 & L2 & S2 & t2 & T2 & E2).
    repeat split; try congruence.
    exists (t1 ++ t2). rewrite T2, T1, app_assoc. split; [reflexivity|].
    apply Forall_app. auto.
  - repeat split; auto. exists t1. auto.
Qed.

Lemma framed_if {A : Type} (E : event -> Prop) (b : bool) (m1 m2 : M A) :
  framed E m1 -> framed E m2 -> framed E (if b then m1 else m2).
Proof. destruct b; auto. Qed.

Lemma framed_weaken {A : Type} (E E' : event -> Prop) (m : M A) :
  (forall e, E e -> E' e) -> framed E m -> framed E' m.
Proof.
  intros HE Hm w. destruct (Hm w) as (F & L & S & t & T & Ht).
  repeat split; auto. exists t. split; [exact T|].
  eapply Forall_impl; eauto.
Qed.

Lemma framed_from_estimator (E : event -> Prop) (p : plot) :
  framed E (from_estimator p).
Proof.
  intros w. unfold from_estimator, bind, read_model, read_x_test,
    read_y_test, raise.
  destruct (model (vars w)) as [m|]; simpl;
    [|repeat split; exists []; rewrite app_nil_r; auto].
  destruct (x_test (vars w)); simpl;
    [|repeat split; exists []; rewrite app_nil_r; auto].
  destruct (y_test (vars w)); simpl;
    [|repeat split; exists []; rewrite app_nil_r; auto].
  destruct (fitted m); simpl;
    repeat split; exists []; rewrite app_nil_r; auto.
Qed.

Lemma framed_pyplot (E : event -> Prop) :
  (forall fig, E (Pyplot fig)) -> framed E pyplot.
Proof.
  intros He w. simpl. repeat split. exists [Pyplot (figure w)]. auto.
Qed.

Lemma plot_metrics_framed (metrics_list : list string) :
  framed plot_event (plot_metrics metrics_list).
Proof.
  assert (Hblock : forall p,
    framed plot_event
      (do _ <- emit (Subheader (plot_title p));
       do _ <- from_estimator p;
       pyplot)).
  { intros p. apply framed_bind; [apply framed_emit; exact I | intros _].
    apply framed_bind; [apply framed_from_estimator | intros _].
    apply framed_pyplot. intros fig. exact I. }
  unfold plot_metrics.
  apply framed_bind;
    [apply framed_if;
       [apply (Hblock ConfusionMatrixDisplay) | apply framed_ret]
    | intros _].
  apply framed_bind;
    [apply framed_if; [apply (Hblock RocCurveDisplay) | apply framed_ret]
    | intros _].
  apply framed_if;
    [apply (Hblock PrecisionRecallDisplay) | apply framed_ret].
Qed.

(** Close a case in which the Classify body has come to its end. *)
Ltac halted H :=
  injection H as <- <-; simpl;
  rewrite <- ?app_assoc; simpl;
  repeat split;
  eexists; split; [reflexivity | repeat constructor].

Lemma classify_framed
  (learn : Estimator -> DataFrame -> Series ->
           string + (DataFrame -> list value))
  (header : string) (est : Estimator) (x_train xt : DataFrame)
  (y_train yt : Series) (cn : list value) (metrics : list string) :
  framed (classify_event est)
    (classify learn header est x_train xt y_train yt cn metrics).
Proof.
  intros w.
  destruct w as [fi lc sc fg [mo xt' yt'] lg].
  destruct (classify _ _ _ _ _ _ _ _ _ _) as [r w'] eqn:Hrun.
  run_script Hrun. simpl snd.
  destruct (learn est x_train y_train) as [msg|f]; [halted Hrun|].
  run_script Hrun.
  destruct (accuracy_score (s_values yt) (f xt)) as [acc|e];
    [|halted Hrun].
  run_script Hrun.
  destruct (precision_score (s_values yt) (f xt) cn) as [pr|e];
    [|halted Hrun].
  run_script Hrun.
  destruct (recall_score (s_values yt) (f xt) cn) as [re|e];
    [|halted Hrun].
  run_script Hrun.
  match type of Hrun with plot_metrics _ ?W = _ => set (W0 := W) in * end.
  destruct (plot_metrics_framed metrics W0) as (F & L & S & t & T & Ht).
  rewrite Hrun in F, L, S, T. simpl in F, L, S, T.
  rewrite F, L, S, T. unfold W0. simpl.
  rewrite <- ?app_assoc. simpl.
  repeat split.
  eexists. split; [reflexivity|].
  repeat (apply Forall_cons; [simpl; auto|]).
  eapply Forall_impl; [|exact Ht].
  intros e He. destruct e; simpl in *; tauto.
Qed.

(** ** The widgets keep their bounds *)

Lemma number_input_bounds (lo hi v : Z) :
  (lo <= hi)%Z -> (lo <= number_input lo hi v <= hi)%Z.
Proof. unfold number_input. lia. Qed.

Lemma slider_bounds (lo hi v : Z) :
  (lo <= hi)%Z -> (lo <= slider lo hi v <= hi)%Z.
Proof. unfold slider. lia. Qed.

Lemma number_input_float_bounds (lo hi v : Q) :
  (lo <= hi)%Q ->
  (lo <= number_input_float lo hi v)%Q /\ (number_input_float lo hi v <= hi)%Q.
Proof.
  intros Hlh. unfold number_input_float.
  destruct (Qle_bool v lo) eqn:E1.
  - split; [apply Qle_refl | exact Hlh].
  - destruct (Qle_bool hi v) eqn:E2.
    + split; [exact Hlh | apply Qle_refl].
    + split; apply Qlt_le_weak, Qnot_le_lt; intros H;
        apply Qle_bool_iff in H; congruence.
Qed.

Lemma radio_In (options : list string) (choice : nat) :
  options <> [] -> In (radio options choice) options.
Proof.
  intros Hne. unfold radio.
  destruct (nth_in_or_default choice options (hd "" options)) as [H|H];
    [exact H|].
  rewrite H. destruct options; [congruence | now left].
Qed.

(** ** The classifier branches *)

Section BranchesFramed.

Variable learn :
  Estimator -> DataFrame -> Series -> string + (DataFrame -> list value).

Variable ui : session.

Variables x_train x_test : DataFrame.

Variables y_train y_test : Series.

Lemma branch_framed (header : string) (est : Estimator)
  (metrics : list string) :
  framed (branch_event ui est)
    (do _ <- emit (SidebarSubheader "Model Hyperparameters");
     if classify_pressed ui
     then classify learn header est x_train x_test y_train y_test
                   class_names metrics
     else ret tt).
Proof.
  apply framed_bind; [apply framed_emit; now left | intros _].
  destruct (classify_pressed ui) eqn:Hp.
  - eapply framed_weaken; [|apply classify_framed].
    intros e He. right. auto.
  - apply framed_ret.
Qed.

Lemma svm_branch_framed :
  framed
    (branch_event ui
       (SVC (number_input_float (Qmake 1 100) (inject_Z 10) (C_SVM ui))
            (radio ["rbf"; "linear"] (kernel_choice ui))
            (radio ["scale"; "auto"] (gamma_choice ui))))
    (svm_branch learn ui x_train x_test y_train y_test class_names).
Proof. unfold svm_branch. apply branch_framed. Qed.

Lemma logistic_branch_framed :
  framed
    (branch_event ui
       (LogisticRegression
          (number_input_float (Qmake 1 100) (inject_Z 10) (C_LR ui))
          (slider 100 500 (max_iter_value ui))))
    (logistic_branch learn ui x_train x_test y_train y_test class_names).
Proof. unfold logistic_branch. apply branch_framed. Qed.

Lemma forest_branch_framed :
  framed
    (branch_event ui
       (RandomForestClassifier
          (number_input 100 5000 (n_estimators_value ui))
          (number_input 1 20 (max_depth_value ui))
          (PyStr (radio ["True"; "False"] (bootstrap_choice ui)))
          (-1)))
    (forest_branch learn ui x_train x_test y_train y_test class_names).
Proof. unfold forest_branch. apply branch_framed. Qed.

End BranchesFramed.

(** ** Rules for [run] *)

Lemma run_of_framed {A : Type} (E0 E : event -> Prop) (P : world -> Prop)
  (m : M A) :
  framed E0 m -> cache_only P -> (forall e, E0 e -> E e) -> run E P m P P.
Proof.
  intros Hm HP HE w Hw. destruct (Hm w) as (F & L & S & t & T & Ht).
  split.
  - exists t. split; [exact T|]. eapply Forall_impl; eauto.
  - assert (P (snd (m w))) by (eapply HP; eauto).
    destruct (fst (m w)); assumption.
Qed.

Lemma run_bind {A B : Type} (E : event -> Prop) (P Q R X : world -> Prop)
  (m : M A) (k : A -> M B) :
  run E P m Q X -> (forall a, run E Q (k a) R X) -> run E P (bind m k) R X.
Proof.
  intros Hm Hk w Hw. destruct (Hm w Hw) as [(t1 & T1 & E1) H1].
  unfold bind. destruct (m w) as [[a|e] w1]; simpl in *.
  - destruct (Hk a w1 H1) as [(t2 & T2 & E2) H2].
    split; [|exact H2].
    exists (t1 ++ t2). rewrite T2, T1, app_assoc. split; [reflexivity|].
    apply Forall_app. auto.
  - split; [|exact H1]. exists t1. auto.
Qed.

Lemma run_ret {A : Type} (E : event -> Prop) (P X : world -> Prop) (a : A) :
  run E P (ret a) P X.
Proof.
  intros w Hw. simpl. split; [|exact Hw].
  exists []. rewrite app_nil_r. auto.
Qed.

Lemma framed_assign {A : Type} (E : event -> Prop) (a : A)
  (v : world -> locals) :
  framed E (fun w => (Ok a, with_vars (v w) w)).
Proof.
  intros w. simpl. repeat split. exists []. rewrite app_nil_r. auto.
Qed.

Lemma selectbox_eq (options : list string) (choice : nat) (s : string) :
  String.eqb (selectbox options choice) s = true ->
  selectbox options choice = s.
Proof. apply String.eqb_eq. Qed.

(** ** A run of main, piece by piece *)

Section MainRun.

Variable permutation : nat -> list nat.

Variable learn :
  Estimator -> DataFrame -> Series -> string + (DataFrame -> list value).

Variable ui : session.

Variable E : event -> Prop.

Variables P J : world -> Prop.

Hypothesis P_cache_only : cache_only P.

Hypothesis J_cache_only : cache_only J.

Hypothesis load_data_run : run E P load_data J J.

Hypothesis split_run : forall df, run E J (split permutation df) J J.

Hypothesis main_events : forall e, main_event ui e -> E e.

Lemma header_event (e : event) :
  In e [Title "Binary Classification Web App";
        SidebarTitle "Binary Classification Web App";
        Markdown "Are your mushrooms edible or poisonous? 🍄";
        SidebarMarkdown "Are your mushrooms edible or poisonous? 🍄";
        SidebarSubheader "Choose Classifier"] ->
  E e.
Proof. intros H. apply main_events. left. exact H. Qed.

Lemma main_run : run E P (main permutation learn ui) J J.
Proof.
  unfold main.
  assert (HPJ : forall (Q : world -> Prop) e,
            cache_only Q -> E e -> run E Q (emit e) Q J).
  { intros Q e HQ He w Hw. simpl. split; [exists [e]; auto|].
    eapply HQ; [| | |exact Hw]; reflexivity. }
  eapply run_bind with (Q := P).
  { intros w Hw. simpl. split; [exists []; rewrite app_nil_r; auto|].
    eapply P_cache_only; [| | |exact Hw]; reflexivity. }
  intros _.
  eapply run_bind;
    [apply HPJ; [exact P_cache_only | apply header_event; simpl; tauto]
    | intros _].
  eapply run_bind;
    [apply HPJ; [exact P_cache_only | apply header_event; simpl; tauto]
    | intros _].
  eapply run_bind;
    [apply HPJ; [exact P_cache_only | apply header_event; simpl; tauto]
    | intros _].
  eapply run_bind;
    [apply HPJ; [exact P_cache_only | apply header_event; simpl; tauto]
    | intros _].
  eapply run_bind; [exact load_data_run | intros df].
  eapply run_bind; [apply split_run | intros [[[xtr xte] ytr] yte]].
  eapply run_bind with (Q := J).
  { apply (run_of_framed E E); auto.
    apply (framed_assign E tt
             (fun w => mkLocals (model (vars w)) (Some xte) (Some yte))). }
  intros _.
  eapply run_bind;
    [apply HPJ; [exact J_cache_only | apply header_event; simpl; tauto]
    | intros _].
  eapply run_bind with (Q := J).
  { destruct (String.eqb _ _) eqn:Hc; [|apply run_ret].
    eapply run_of_framed;
      [apply svm_branch_framed | exact J_cache_only |].
    intros e He. apply main_events. right. left.
    eexists. split; [|exact He].
    apply selectbox_eq in Hc. simpl. rewrite Hc.
    split; [reflexivity|].
    split; [apply number_input_float_bounds; discriminate|].
    split; [apply number_input_float_bounds; discriminate|].
    split; [apply (radio_In ["rbf"; "linear"]) 
           | apply (radio_In ["scale"; "auto"])]; discriminate. }
  intros _.
  eapply run_bind with (Q := J).
  { destruct (String.eqb _ _) eqn:Hc; [|apply run_ret].
    eapply run_of_framed;
      [apply logistic_branch_framed | exact J_cache_only |].
    intros e He. apply main_events. right. left.
    eexists. split; [|exact He].
    apply selectbox_eq in Hc. simpl. rewrite Hc.
    split; [reflexivity|].
    split; [apply number_input_float_bounds; discriminate|].
    split; [apply number_input_float_bounds; discriminate|].
    apply slider_bounds. lia. }
  intros _.
  eapply run_bind with (Q := J).
  { destruct (String.eqb _ _) eqn:Hc; [|apply run_ret].
    eapply run_of_framed;
      [apply forest_branch_framed | exact J_cache_only |].
    intros e He. apply main_events. right. left.
    eexists. split; [|exact He].
    apply selectbox_eq in Hc. simpl. rewrite Hc.
    split; [reflexivity|].
    split; [apply number_input_bounds; lia|].
    split; [apply number_input_bounds; lia|].
    split; [|reflexivity].
    destruct (radio_In ["True"; "False"] (bootstrap_choice ui))
      as [<-|[<-|[]]]; [discriminate | simpl; auto | simpl; auto]. }
  intros _.
  destruct (show_raw_checked ui) eqn:Hraw; [|apply run_ret].
  eapply run_bind.
  - apply HPJ; [exact J_cache_only|].
    apply main_events. right. right. auto.
  - intros _. apply HPJ; [exact J_cache_only|].
    apply main_events. right. right. eauto.
Qed.

End MainRun.

(** ** What runs of main leave behind *)

Lemma DataFrame_eqb_eq (a b : DataFrame) : DataFrame_eqb a b = true -> a = b.
Proof.
  unfold DataFrame_eqb. destruct (DataFrame_eq_dec a b); congruence.
Qed.

Lemma assoc_cons_sound (permutation : nat -> list nat)
  (c : list (DataFrame * split_t)) (df : DataFrame) (parts : split_t) :
  (forall d p, assoc DataFrame_eqb d c = Some p ->
               split_body permutation d = Ok p) ->
  split_body permutation df = Ok parts ->
  forall d p, assoc DataFrame_eqb d ((df, parts) :: c) = Some p ->
              split_body permutation d = Ok p.
Proof.
  intros Hc Hb d p. simpl.
  destruct (DataFrame_eqb df d) eqn:Heq.
  - apply DataFrame_eqb_eq in Heq. subst d. intros [= <-]. exact Hb.
  - apply Hc.
Qed.

Lemma split_effect (permutation : nat -> list nat) (df : DataFrame)
  (w : world) :
  log (snd (split permutation df w)) = log w /\
  file (snd (split permutation df w)) = file w /\
  load_data_cache (snd (split permutation df w)) = load_data_cache w /\
  (split_cache_sound permutation w ->
   split_cache_sound permutation (snd (split permutation df w))).
Proof.
  unfold split, st_cache, lift.
  destruct (assoc DataFrame_eqb df (split_cache w)) as [v|] eqn:Ha; simpl.
  - auto.
  - destruct (split_body permutation df) as [parts|e] eqn:Hb; simpl.
    + repeat split. intros Hs. unfold split_cache_sound. simpl.
      apply assoc_cons_sound; assumption.
    + auto.
Qed.

Lemma split_run_any (permutation : nat -> list nat) (E : event -> Prop)
  (J : world -> Prop) (df : DataFrame) :
  (forall w, J w -> J (snd (split permutation df w))) ->
  run E J (split permutation df) J J.
Proof.
  intros HJ w Hw. destruct (split_effect permutation df w) as (L & _).
  split.
  - exists []. rewrite app_nil_r. auto.
  - specialize (HJ w Hw). destruct (fst (split permutation df w)); exact HJ.
Qed.

Lemma load_data_run_any (E : event -> Prop) (P J : world -> Prop) :
  E (ReadCsv "mushrooms.csv") ->
  (forall w, P w -> J (snd (load_data w))) ->
  run E P load_data J J.
Proof.
  intros He HJ w Hw. destruct (load_data_effect w) as (t & L & Ht & _).
  split.
  - exists t. split; [exact L|].
    destruct Ht as [->| ->]; repeat constructor. exact He.
  - specialize (HJ w Hw). destruct (fst (load_data w)); exact HJ.
Qed.

Lemma cache_only_True : cache_only (fun _ => True).
Proof. intros w w' _ _ _ _. exact I. Qed.

Lemma cache_only_sound (permutation : nat -> list nat) :
  cache_only (split_cache_sound permutation).
Proof.
  intros w w' _ _ Hs H df parts. rewrite Hs. apply H.
Qed.

(** X6.  A run of [main] keeps the memo table of [split] honest: if
    every entry is what [split] computes for its key before the run,
    the same holds after it, however the run ends.  An empty table is
    honest, so this holds in every world reached from one with an empty
    table. *)
Theorem main_keeps_split_cache_sound (permutation : nat -> list nat)
  (learn : Estimator -> DataFrame -> Series ->
           string + (DataFrame -> list value))
  (ui : session) (w : world) :
  split_cache_sound permutation w ->
  split_cache_sound permutation (snd (main permutation learn ui w)).
Proof.
  intros Hs.
  pose proof (main_run permutation learn ui (fun _ => True)
                (split_cache_sound permutation)
                (split_cache_sound permutation)
                (cache_only_sound permutation)
                (cache_only_sound permutation)) as H.
  destruct (H) with (w := w) as [_ Hpost]; auto.
  - apply load_data_run_any; [exact I|].
    intros w0 H0. destruct (load_data_effect w0) as (t & _ & _ & _ & Hc & _).
    intros df parts. rewrite Hc. apply H0.
  - intros df. apply split_run_any.
    intros w0 H0. apply split_effect. exact H0.
  - destruct (fst (main permutation learn ui w)); exact Hpost.
Qed.

Lemma main_keeps_split_cache_sound_witness :
  split_cache_sound reversed
    (snd (main reversed by_odor forest_session (fresh (Some ten_mushrooms)))).
Proof.
  apply (main_keeps_split_cache_sound reversed by_odor forest_session
           (fresh (Some ten_mushrooms))).
  apply fresh_split_cache_sound. reflexivity.
Defined.

Lemma load_data_fills (w : world) (df : DataFrame) :
  fst (load_data w) = Ok df ->
  load_data_cache (snd (load_data w)) <> [].
Proof.
  unfold load_data, st_cache.
  destruct (load_data_cache w) as [|[[] d] c] eqn:Hc; simpl.
  - destruct (load_data_body tt w) as [[v|e] w']; simpl; congruence.
  - rewrite Hc. congruence.
Qed.

Lemma load_data_cached (w : world) :
  load_data_cache w <> [] -> snd (load_data w) = w.
Proof.
  unfold load_data, st_cache.
  destruct (load_data_cache w) as [|[[] d] c]; [congruence | reflexivity].
Qed.

(** X7.  Once a run of [main] has loaded the table, no later run in the
    process reads the file again, whatever the user selects and whatever
    has become of the file: the whole trace of the later run is free of
    [read_csv]. *)
Theorem rerun_reads_nothing (permutation : nat -> list nat)
  (learn : Estimator -> DataFrame -> Series ->
           string + (DataFrame -> list value))
  (ui ui' : session) (w w' : world) (df : DataFrame) :
  fst (load_data w) = Ok df ->
  load_data_cache w' =
    load_data_cache (snd (main permutation learn ui w)) ->
  exists t,
    log (snd (main permutation learn ui' w')) = log w' ++ t /\
    forall path, ~ In (ReadCsv path) t.
Proof.
  intros Hload Hsame.
  set (P := fun w0 : world => exists d, fst (load_data w0) = Ok d).
  set (J := fun w0 : world => load_data_cache w0 <> []).
  assert (HP : cache_only P).
  { intros w1 w2 Hf Hc _ [d Hd]. exists d.
    rewrite <- Hd. apply load_data_indep; assumption. }
  assert (HJ : cache_only J).
  { intros w1 w2 _ Hc _ H. unfold J. rewrite Hc. exact H. }
  assert (Hsplit : forall E d, run E J (split permutation d) J J).
  { intros E d. apply split_run_any. intros w0 H0. unfold J.
    destruct (split_effect permutation d w0) as (_ & _ & -> & _). exact H0. }
  assert (J1 : J (snd (main permutation learn ui w))).
  { destruct (main_run permutation learn ui (fun _ => True) P J HP HJ)
      with (w := w) as [_ Hpost].
    - apply load_data_run_any; [exact I|].
      intros w0 [d Hd]. eapply load_data_fills. exact Hd.
    - apply Hsplit.
    - auto.
    - exists df. exact Hload.
    - destruct (fst (main permutation learn ui w)); exact Hpost. }
  assert (J2 : J w') by (unfold J; rewrite Hsame; exact J1).
  destruct (main_run permutation learn ui'
              (fun e => forall path, e <> ReadCsv path) J J HJ HJ)
    with (w := w') as [(t & T & Ht) _].
  - intros w0 H0. rewrite (load_data_cached w0 H0). split.
    + exists []. rewrite app_nil_r. auto.
    + pose proof (load_data_cached w0 H0) as Hw.
      destruct (fst (load_data w0)); exact H0.
  - apply Hsplit.
  - intros e He path ->. unfold main_event, branch_event in He.
    simpl in He.
    destruct He as [He|[He|He]].
    + repeat (destruct He as [He|He]; [discriminate|]). exact He.
    + destruct He as (est & _ & [He|[_ He]]); [discriminate | exact He].
    + destruct He as (_ & [He|[d He]]); discriminate.
  - exact J2.
  - exists t. split; [exact T|]. intros path Hin.
    rewrite Forall_forall in Ht. exact (Ht _ Hin path eq_refl).
Qed.

Lemma rerun_reads_nothing_witness :
  let w1 := snd (main reversed by_odor forest_session
                   (fresh (Some ten_mushrooms))) in
  exists t,
    log (snd (main reversed by_odor forest_session (with_file None w1)))
    = log (with_file None w1) ++ t /\
    forall path, ~ In (ReadCsv path) t.
Proof.
  intros w1.
  apply (rerun_reads_nothing reversed by_odor forest_session forest_session
           (fresh (Some ten_mushrooms)) (with_file None w1) ten_encoded).
  - vm_compute. reflexivity.
  - vm_compute. reflexivity.
Defined.

(** X9.  Unless the Classify button was pressed, a run of [main] builds
    no model, fits nothing, computes and displays no score and renders
    no plot, whichever classifier and options are selected. *)
Theorem no_classify_no_model (permutation : nat -> list nat)
  (learn : Estimator -> DataFrame -> Series ->
           string + (DataFrame -> list value))
  (ui : session) (w : world) :
  classify_pressed ui = false ->
  exists t,
    log (snd (main permutation learn ui w)) = log w ++ t /\
    forall e, In e t -> idle e = true.
Proof.
  intros Hp.
  destruct (main_run permutation learn ui (fun e => idle e = true)
              (fun _ => True) (fun _ => True)
              cache_only_True cache_only_True)
    with (w := w) as [(t & T & Ht) _].
  - apply load_data_run_any; auto.
  - intros df. apply split_run_any. auto.
  - intros e He. unfold main_event, branch_event in He.
    destruct He as [He|[He|He]].
    + simpl in He.
      repeat (destruct He as [<-|He]; [reflexivity|]). destruct He.
    + destruct He as (est & _ & [->|[He _]]); [reflexivity | congruence].
    + destruct He as (_ & [->|[d ->]]); reflexivity.
  - exact I.
  - exists t. split; [exact T|]. apply Forall_forall. exact Ht.
Qed.

Lemma no_classify_no_model_witness :
  exists t,
    log (snd (main reversed by_odor browsing_session
                (fresh (Some ten_mushrooms))))
    = log (fresh (Some ten_mushrooms)) ++ t /\
    forall e, In e t -> idle e = true.
Proof.
  apply (no_classify_no_model reversed by_odor browsing_session
           (fresh (Some ten_mushrooms))).
  reflexivity.
Defined.

(** X10.  Every model a run of [main] builds is the one the sidebar
    describes: of the family named by the classifier widget, with each
    hyperparameter inside the bounds, or among the options, of its
    widget, and with [n_jobs = -1] for a forest. *)
Theorem model_matches_sidebar (permutation : nat -> list nat)
  (learn : Estimator -> DataFrame -> Series ->
           string + (DataFrame -> list value))
  (ui : session) (w : world) :
  exists t,
    log (snd (main permutation learn ui w)) = log w ++ t /\
    forall est, In (Construct est) t -> sidebar_model ui est.
Proof.
  destruct (main_run permutation learn ui
              (fun e => forall est, e = Construct est -> sidebar_model ui est)
              (fun _ => True) (fun _ => True)
              cache_only_True cache_only_True)
    with (w := w) as [(t & T & Ht) _].
  - apply load_data_run_any; [discriminate | auto].
  - intros df. apply split_run_any. auto.
  - intros e He est ->. unfold main_event, branch_event in He.
    destruct He as [He|[He|He]].
    + simpl in He.
      repeat (destruct He as [He|He]; [discriminate|]). destruct He.
    + destruct He as (est0 & Hm & [He|[_ He]]); [discriminate|].
      simpl in He. subst est0. exact Hm.
    + destruct He as (_ & [He|[d He]]); discriminate.
  - exact I.
  - exists t. split; [exact T|]. intros est Hin.
    rewrite Forall_forall in Ht. exact (Ht _ Hin est eq_refl).
Qed.

(** ** When the file is not there *)

(** X8.  With nothing cached and no file, [load_data] raises
    [FileNotFoundError] and stores nothing; [main] stops there, having
    rendered its titles only; and the failure is not remembered: once
    the file is there, the next call reads and encodes it. *)
Theorem load_data_missing_file (permutation : nat -> list nat)
  (learn : Estimator -> DataFrame -> Series ->
           string + (DataFrame -> list value))
  (ui : session) (w : world) :
  load_data_cache w = [] ->
  file w = None ->
  fst (load_data w) = Err (FileNotFoundError "mushrooms.csv") /\
  load_data_cache (snd (load_data w)) = [] /\
  fst (main permutation learn ui w)
    = Err (FileNotFoundError "mushrooms.csv") /\
  log (snd (main permutation learn ui w)) =
    log w ++ [Title "Binary Classification Web App";
              SidebarTitle "Binary Classification Web App";
              Markdown "Are your mushrooms edible or poisonous? 🍄";
              SidebarMarkdown "Are your mushrooms edible or poisonous? 🍄";
              ReadCsv "mushrooms.csv"] /\
  forall raw, fst (load_data (with_file (Some raw) (snd (load_data w))))
              = encode_columns raw.
Proof.
  intros Hc Hf.
  assert (Hl : forall w0, load_data_cache w0 = [] -> file w0 = None ->
             load_data w0 = (Err (FileNotFoundError "mushrooms.csv"),
                             with_log (log w0 ++ [ReadCsv "mushrooms.csv"])
                                      w0)).
  { intros w0 Hc0 Hf0.
    unfold load_data, st_cache, load_data_body, read_csv, bind, emit, lift.
    rewrite Hc0. simpl. rewrite Hf0. reflexivity. }
  rewrite (Hl w Hc Hf). simpl.
  split; [reflexivity|]. split; [exact Hc|].
  assert (Hmain : main permutation learn ui w =
            (Err (FileNotFoundError "mushrooms.csv"),
             with_log
               (log w ++ [Title "Binary Classification Web App";
                  SidebarTitle "Binary Classification Web App";
                  Markdown "Are your mushrooms edible or poisonous? 🍄";
                  SidebarMarkdown "Are your mushrooms edible or poisonous? 🍄";
                  ReadCsv "mushrooms.csv"])
               (with_vars unbound w))).
  { main_prologue. rewrite Hl; [|exact Hc | exact Hf].
    unfold with_log, with_vars. simpl.
    rewrite <- !app_assoc. reflexivity. }
  rewrite Hmain. simpl.
  split; [reflexivity|]. split; [reflexivity|].
  intros raw.
  rewrite (load_data_miss _ raw); [|exact Hc | reflexivity].
  destruct (encode_columns raw); reflexivity.
Qed.

Lemma load_data_missing_file_witness :
  let w := fresh None in
  fst (load_data w) = Err (FileNotFoundError "mushrooms.csv") /\
  load_data_cache (snd (load_data w)) = [] /\
  fst (main reversed by_odor forest_session w)
    = Err (FileNotFoundError "mushrooms.csv") /\
  log (snd (main reversed by_odor forest_session w)) =
    log w ++ [Title "Binary Classification Web App";
              SidebarTitle "Binary Classification Web App";
              Markdown "Are your mushrooms edible or poisonous? 🍄";
              SidebarMarkdown "Are your mushrooms edible or poisonous? 🍄";
              ReadCsv "mushrooms.csv"] /\
  forall raw, fst (load_data (with_file (Some raw) (snd (load_data w))))
              = encode_columns raw.
Proof.
  intros w.
  apply (load_data_missing_file reversed by_odor forest_session w);
    reflexivity.
Defined.

(** ** plot_metrics without a model *)

(** X11.  Where no model is bound, [plot_metrics] reads [model] only if
    a plot is selected: with no plot selected it returns and changes
    nothing; otherwise it renders the header of the first selected plot
    (in the fixed order) and then raises [NameError] for [model]. *)
Theorem plot_metrics_without_model (metrics_list : list string)
  (w : world) :
  model (vars w) = None ->
  plot_metrics metrics_list w =
    match filter (fun p => contains (plot_title p) metrics_list)
                 plot_order with
    | [] => (Ok tt, w)
    | p :: _ =>
        (Err (NameError "model"),
         with_log (log w ++ [Subheader (plot_title p)]) w)
    end.
Proof.
  intros Hm. destruct w as [fi lc sc fg [mo xt yt] lg].
  simpl in Hm. subst mo.
  unfold plot_metrics, plot_order, filter, plot_title.
  destruct (contains "Confusion Matrix" metrics_list);
    [reflexivity|].
  destruct (contains "ROC Curve" metrics_list);
    [reflexivity|].
  destruct (contains "Precision-Recall Curve" metrics_list);
    reflexivity.
Qed.

Lemma plot_metrics_without_model_witness :
  plot_metrics ["ROC Curve"] (fresh None) =
    match filter (fun p => contains (plot_title p) ["ROC Curve"])
                 plot_order with
    | [] => (Ok tt, fresh None)
    | p :: _ =>
        (Err (NameError "model"),
         with_log (log (fresh None) ++ [Subheader (plot_title p)])
                  (fresh None))
    end.
Proof.
  apply (plot_metrics_without_model ["ROC Curve"] (fresh None)).
  reflexivity.
Defined.

(** ** When load_data returns, and what shape it returns *)

Lemma fit_transform_length (raw c : list value) :
  fit_transform raw = Ok c -> length c = length raw.
Proof.
  intros H. rewrite (fit_transform_Ok raw c H). apply length_map.
Qed.

Lemma Forall2_encoded_lengths (l l' : list (string * list value)) :
  Forall2 encoded l l' ->
  map (fun nc => length (snd nc)) l' = map (fun nc => length (snd nc)) l.
Proof.
  induction 1 as [|a b l l' [_ Hft] _ IH]; simpl; [reflexivity|].
  rewrite (fit_transform_length _ _ Hft), IH. reflexivity.
Qed.

(** X14.  Encoding keeps the shape of the table: [load_data] returns the
    rows of the file under the same row labels, and every column with
    the number of cells it had; a table with one cell per row and
    column stays one. *)
Theorem load_data_keeps_shape (w w' : world) (raw enc : DataFrame) :
  load_data_cache w = [] ->
  file w = Some raw ->
  NoDup (column_names raw) ->
  load_data w = (Ok enc, w') ->
  index enc = index raw /\
  map (fun nc => length (snd nc)) (columns enc)
    = map (fun nc => length (snd nc)) (columns raw) /\
  (well_formed raw -> well_formed enc).
Proof.
  intros Hc Hf Hnd Hload.
  rewrite (load_data_miss w raw Hc Hf) in Hload.
  destruct (encode_columns raw) as [enc0|e] eqn:Henc; [|discriminate].
  injection Hload as <- _.
  destruct (encode_columns_Ok raw enc0 Hnd Henc) as [Hi Hall].
  pose proof (Forall2_encoded_lengths _ _ Hall) as Hlen.
  split; [exact Hi|]. split; [exact Hlen|].
  unfold well_formed, len. rewrite Hi. intros Hwf.
  rewrite <- (Forall_map (fun nc : string * list value => length (snd nc))
                (fun n => n = length (index raw))) in *.
  rewrite Hlen. exact Hwf.
Qed.

Lemma load_data_keeps_shape_witness :
  index ten_encoded = index ten_mushrooms /\
  map (fun nc => length (snd nc)) (columns ten_encoded)
    = map (fun nc => length (snd nc)) (columns ten_mushrooms) /\
  (well_formed ten_mushrooms -> well_formed ten_encoded).
Proof.
  apply (load_data_keeps_shape (fresh (Some ten_mushrooms)) ten_loaded
           ten_mushrooms ten_encoded).
  - reflexivity.
  - reflexivity.
  - exact ten_mushrooms_names.
  - vm_compute. reflexivity.
Defined.

Lemma fold_encode_total (todo done : list (string * list value))
  (idx : list nat) :
  NoDup (map fst (done ++ todo)) ->
  Forall (fun nc => uniform (snd nc) = true) todo ->
  exists r,
    fold_left (fun acc col => try d <- acc; encode_column d col)
              (map fst todo) (Ok (mkDataFrame idx (done ++ todo))) = Ok r.
Proof.
  revert done.
  induction todo as [|[n c] todo IH]; intros done Hnd Hu; simpl.
  - eauto.
  - assert (Hfresh : ~ In n (map fst done)).
    { rewrite map_app in Hnd. simpl in Hnd.
      apply NoDup_remove_2 in Hnd. intros Hin. apply Hnd.
      apply in_or_app. now left. }
    inversion Hu as [|? ? Hc Hu']; subst. simpl in Hc.
    unfold encode_column at 2, getitem. simpl.
    rewrite (lookup_app_fresh n c done todo Hfresh). simpl.
    unfold fit_transform. rewrite Hc. simpl.
    unfold setitem. simpl.
    rewrite (replace_app_fresh n c _ done todo Hfresh).
    match goal with
    | |- context [done ++ (n, ?c') :: todo] =>
        replace (done ++ (n, c') :: todo) with ((done ++ [(n, c')]) ++ todo)
          by (rewrite <- app_assoc; reflexivity)
    end.
    apply IH; [|exact Hu'].
    rewrite <- app_assoc. simpl.
    rewrite map_app in *. simpl in *. exact Hnd.
Qed.

Lemma fold_encode_mixed (todo done : list (string * list value))
  (idx : list nat) :
  NoDup (map fst (done ++ todo)) ->
  Exists (fun nc => uniform (snd nc) = false) todo ->
  fold_left (fun acc col => try d <- acc; encode_column d col)
            (map fst todo) (Ok (mkDataFrame idx (done ++ todo)))
  = Err TypeError.
Proof.
  revert done.
  induction todo as [|[n c] todo IH]; intros done Hnd Hex; simpl.
  - inversion Hex.
  - assert (Hfresh : ~ In n (map fst done)).
    { rewrite map_app in Hnd. simpl in Hnd.
      apply NoDup_remove_2 in Hnd. intros Hin. apply Hnd.
      apply in_or_app. now left. }
    unfold encode_column at 2, getitem. simpl.
    rewrite (lookup_app_fresh n c done todo Hfresh). simpl.
    unfold fit_transform.
    destruct (uniform c) eqn:Hc; simpl.
    + unfold setitem. simpl.
      rewrite (replace_app_fresh n c _ done todo Hfresh).
      match goal with
      | |- context [done ++ (n, ?c') :: todo] =>
          replace (done ++ (n, c') :: todo)
            with ((done ++ [(n, c')]) ++ todo)
            by (rewrite <- app_assoc; reflexivity)
      end.
      apply IH.
      * rewrite <- app_assoc. simpl.
        rewrite map_app in *. simpl in *. exact Hnd.
      * inversion Hex as [? ? H|? ? H]; subst; [|exact H].
        simpl in H. congruence.
    + apply fold_encode_Err.
Qed.

Lemma load_data_total (w : world) (raw : DataFrame) :
  load_data_cache w = [] ->
  file w = Some raw ->
  NoDup (column_names raw) ->
  Forall (fun nc => uniform (snd nc) = true) (columns raw) ->
  exists enc, fst (load_data w) = Ok enc.
Proof.
  intros Hc Hf Hnd Hu. rewrite (load_data_miss w raw Hc Hf).
  destruct raw as [idx cols].
  destruct (fold_encode_total cols [] idx Hnd Hu) as [r Hr].
  unfold encode_columns, column_names. simpl in *. rewrite Hr.
  exists r. reflexivity.
Qed.

(** X15.  [load_data] returns a table whenever the file is there, its
    column names are distinct and each column is uniformly of strings or
    uniformly of integers. *)
Theorem load_data_returns (w : world) (raw : DataFrame) :
  load_data_cache w = [] ->
  file w = Some raw ->
  NoDup (column_names raw) ->
  Forall (fun nc => uniform (snd nc) = true) (columns raw) ->
  exists enc, fst (load_data w) = Ok enc.
Proof.
  intros Hc Hf Hnd Hu. apply (load_data_total w raw); assumption.
Qed.

Lemma load_data_returns_witness :
  exists enc, fst (load_data (fresh (Some ten_mushrooms))) = Ok enc.
Proof.
  apply (load_data_returns (fresh (Some ten_mushrooms)) ten_mushrooms).
  - reflexivity.
  - reflexivity.
  - exact ten_mushrooms_names.
  - repeat constructor.
Defined.

(** X16.  A column that mixes strings and integers makes [load_data]
    raise [TypeError], whatever the other columns hold; nothing is
    stored in its memo table. *)
Theorem load_data_mixed_column (w : world) (raw : DataFrame) :
  load_data_cache w = [] ->
  file w = Some raw ->
  NoDup (column_names raw) ->
  Exists (fun nc => uniform (snd nc) = false) (columns raw) ->
  fst (load_data w) = Err TypeError /\
  load_data_cache (snd (load_data w)) = [].
Proof.
  intros Hc Hf Hnd Hex. rewrite (load_data_miss w raw Hc Hf).
  destruct raw as [idx cols].
  pose proof (fold_encode_mixed cols [] idx Hnd Hex) as Hr.
  unfold encode_columns, column_names. simpl in *. rewrite Hr.
  split; [reflexivity | exact Hc].
Qed.

Lemma load_data_mixed_column_witness :
  fst (load_data (fresh (Some mixed_column))) = Err TypeError /\
  load_data_cache (snd (load_data (fresh (Some mixed_column)))) = [].
Proof.
  apply (load_data_mixed_column (fresh (Some mixed_column)) mixed_column).
  - reflexivity.
  - reflexivity.
  - unfold column_names. simpl.
    repeat constructor; simpl; intuition discriminate.
  - apply Exists_cons_tl, Exists_cons_hd. reflexivity.
Defined.

(** ** The codes follow the sorted order *)

Lemma ascii_compare_refl (a : ascii) : Ascii.compare a a = Eq.
Proof. unfold Ascii.compare. apply N.compare_refl. Qed.

Lemma ascii_compare_lt_trans (a b c : ascii) :
  Ascii.compare a b = Lt -> Ascii.compare b c = Lt -> Ascii.compare a c = Lt.
Proof.
  unfold Ascii.compare. rewrite !N.compare_lt_iff. apply N.lt_trans.
Qed.

Lemma string_compare_refl (s : string) : String.compare s s = Eq.
Proof.
  induction s as [|a s IH]; simpl; [reflexivity|].
  rewrite ascii_compare_refl. exact IH.
Qed.

Lemma string_compare_lt_trans (a b c : string) :
  String.compare a b = Lt -> String.compare b c = Lt ->
  String.compare a c = Lt.
Proof.
  revert b c. induction a as [|x a IH]; intros [|y b] [|z c]; simpl;
    try congruence.
  destruct (Ascii.compare x y) eqn:Exy; try discriminate;
    destruct (Ascii.compare y z) eqn:Eyz; try discriminate.
  - apply Ascii.compare_eq_iff in Exy, Eyz. subst.
    rewrite ascii_compare_refl. apply IH.
  - apply Ascii.compare_eq_iff in Exy. subst. rewrite Eyz. reflexivity.
  - apply Ascii.compare_eq_iff in Eyz. subst. rewrite Exy. reflexivity.
  - rewrite (ascii_compare_lt_trans x y z Exy Eyz). reflexivity.
Qed.

Lemma string_leb_cases (a b : string) :
  String.leb a b = true <-> String.compare a b = Lt \/ a = b.
Proof.
  unfold String.leb. split.
  - destruct (String.compare a b) eqn:E; try discriminate; intros _.
    + right. apply String.compare_eq_iff. exact E.
    + now left.
  - intros [->| ->]; [reflexivity|].
    rewrite string_compare_refl. reflexivity.
Qed.

Lemma string_leb_trans (a b c : string) :
  String.leb a b = true -> String.leb b c = true -> String.leb a c = true.
Proof.
  rewrite !string_leb_cases.
  intros [H1| ->] [H2| ->]; auto.
  left. eapply string_compare_lt_trans; eauto.
Qed.

Lemma value_leb_trans (a b c : value) :
  value_leb a b = true -> value_leb b c = true -> value_leb a c = true.
Proof.
  destruct a, b, c; simpl; try congruence.
  - apply string_leb_trans.
  - rewrite !Z.leb_le. lia.
Qed.

Lemma value_leb_total (a b : value) :
  value_leb a b = true \/ value_leb b a = true.
Proof.
  destruct a, b; simpl; auto.
  - apply String.leb_total.
  - rewrite !Z.leb_le. lia.
Qed.

Lemma value_leb_antisym (a b : value) :
  value_leb a b = true -> value_leb b a = true -> a = b.
Proof.
  destruct a, b; simpl; try congruence.
  - intros H1 H2. f_equal. apply String.leb_antisym; assumption.
  - rewrite !Z.leb_le. intros. f_equal. lia.
Qed.

Lemma insert_In (v x : value) (l : list value) :
  In x (insert v l) -> x = v \/ In x l.
Proof.
  intros H. apply (Permutation_in _ (insert_perm v l)) in H.
  destruct H; auto.
Qed.

Lemma insert_sorted (v : value) (l : list value) :
  StronglySorted (fun a b => value_leb a b = true) l ->
  StronglySorted (fun a b => value_leb a b = true) (insert v l).
Proof.
  induction 1 as [|x l Hs IH Hx]; simpl.
  - repeat constructor.
  - destruct (value_leb v x) eqn:E.
    + constructor; [constructor; assumption|].
      constructor; [exact E|].
      eapply Forall_impl; [|exact Hx].
      intros y Hy. eapply value_leb_trans; eauto.
    + constructor; [exact IH|].
      apply Forall_forall. intros y Hy. apply insert_In in Hy.
      destruct Hy as [->|Hy].
      * destruct (value_leb_total v x); congruence.
      * rewrite Forall_forall in Hx. auto.
Qed.

Lemma sorted_sorted (l : list value) :
  StronglySorted (fun a b => value_leb a b = true) (sorted l).
Proof.
  induction l as [|x l IH]; simpl; [constructor|].
  apply insert_sorted, IH.
Qed.

Lemma index_of_monotone (l : list value) (a b : value) :
  StronglySorted (fun a b => value_leb a b = true) l ->
  In a l -> In b l ->
  value_leb a b = true ->
  index_of a l <= index_of b l.
Proof.
  induction 1 as [|x l Hs IH Hx]; simpl; [tauto|].
  intros Ha Hb Hab.
  destruct (value_eqb a x) eqn:Eax; [lia|].
  destruct (value_eqb b x) eqn:Ebx.
  - apply value_eqb_eq in Ebx. subst b. exfalso.
    destruct Ha as [Ha|Ha].
    + subst a. unfold value_eqb in Eax.
      destruct (value_eq_dec x x); congruence.
    + rewrite Forall_forall in Hx.
      assert (a = x) by (apply value_leb_antisym; auto).
      subst a. unfold value_eqb in Eax.
      destruct (value_eq_dec x x); congruence.
  - destruct Ha as [Ha|Ha];
      [subst a; unfold value_eqb in Eax;
       destruct (value_eq_dec x x); congruence|].
    destruct Hb as [Hb|Hb];
      [subst b; unfold value_eqb in Ebx;
       destruct (value_eq_dec x x); congruence|].
    specialize (IH Ha Hb Hab). lia.
Qed.

Lemma code_monotone (col : list value) (a b : value) :
  In a col -> In b col ->
  ((code col a <= code col b)%Z <-> value_leb a b = true).
Proof.
  intros Ha Hb.
  assert (Hmono : forall u v, In u col -> In v col ->
            value_leb u v = true -> (code col u <= code col v)%Z).
  { intros u v Hu Hv Huv. unfold code. apply inj_le.
    apply index_of_monotone; auto.
    - unfold classes_. apply sorted_sorted.
    - apply classes_In. exact Hu.
    - apply classes_In. exact Hv. }
  split; [|apply Hmono; assumption].
  intros Hle. destruct (value_leb_total a b) as [H|H]; [exact H|].
  pose proof (Hmono b a Hb Ha H) as Hba.
  assert (a = b) by (apply (code_inj col); [exact Ha | lia]).
  subst b. exact H.
Qed.

(** X12.  The encoder numbers the values of a column in their sorted
    order: of two cells of a column it has encoded, one gets a code no
    larger than the other's exactly when its value sorts no later
    (strings by code points, integers by size).  In a "type" column of
    "e" and "p", edible is 0 and poisonous is 1. *)
Theorem codes_follow_order (col col' : list value) (i j : nat)
  (a b : value) (x y : Z) :
  fit_transform col = Ok col' ->
  nth_error col i = Some a ->
  nth_error col j = Some b ->
  nth_error col' i = Some (VInt x) ->
  nth_error col' j = Some (VInt y) ->
  ((x <= y)%Z <-> value_leb a b = true).
Proof.
  intros Hft Ha Hb Hx Hy.
  rewrite (fit_transform_Ok col col' Hft) in Hx, Hy.
  rewrite nth_error_map in Hx, Hy. rewrite Ha in Hx. rewrite Hb in Hy.
  simpl in Hx, Hy. injection Hx as <-. injection Hy as <-.
  apply code_monotone; eapply nth_error_In; eauto.
Qed.

Lemma codes_follow_order_witness :
  ((0 <= 1)%Z <-> value_leb (VStr "e") (VStr "p") = true).
Proof.
  apply (codes_follow_order (strs ["p"; "e"; "e"; "p"])
           (map VInt [1; 0; 0; 1]%Z) 1 0 (VStr "e") (VStr "p") 0 1);
    reflexivity.
Defined.

(** ** How far a Classify body gets *)

Section ClassifyStops.

Variable learn :
  Estimator -> DataFrame -> Series -> string + (DataFrame -> list value).

Variables (header : string) (est : Estimator).

Variables (x_train xt : DataFrame) (y_train yt : Series).

Variables (cn : list value) (metrics : list string).

(** X17.  When fitting fails, the Classify body ends with that
    [ValueError] right after its results header: the model was built
    but no score is computed or displayed and nothing is plotted. *)
Theorem classify_fit_fails (w : world) (msg : string) :
  learn est x_train y_train = inl msg ->
  fst (classify learn header est x_train xt y_train yt cn metrics w)
    = Err (ValueError msg) /\
  log (snd (classify learn header est x_train xt y_train yt cn metrics w))
    = log w ++ [Subheader header; Construct est].
Proof.
  intros Hl. destruct w as [fi lc sc fg [mo xt' yt'] lg].
  destruct (classify _ _ _ _ _ _ _ _ _ _) as [r w'] eqn:Hrun.
  run_script Hrun. rewrite Hl in Hrun.
  injection Hrun as <- <-. simpl.
  rewrite <- ?app_assoc. auto.
Qed.

(** X18.  The accuracy is displayed before the precision is computed:
    when [precision_score] raises (as it does for labels of more than
    two classes), the run ends with that exception; an accuracy within
    [[0, 1]] stays on the page, and the recall and the plots are not
    reached. *)
Theorem classify_precision_fails (w : world)
  (f : DataFrame -> list value) (acc : Q) (e : exn) :
  learn est x_train y_train = inr f ->
  accuracy_score (s_values yt) (f xt) = Ok acc ->
  precision_score (s_values yt) (f xt) cn = Err e ->
  fst (classify learn header est x_train xt y_train yt cn metrics w)
    = Err e /\
  exists shown,
    in_unit shown /\
    log (snd (classify learn header est x_train xt y_train yt cn metrics w))
    = log w ++ [Subheader header; Construct est; Fit est;
                Write "Accuracy: " shown;
                PrecisionScore (s_values yt) (f xt) cn].
Proof.
  intros Hl Ha Hp. destruct w as [fi lc sc fg [mo xt' yt'] lg].
  destruct (classify _ _ _ _ _ _ _ _ _ _) as [r w'] eqn:Hrun.
  run_script Hrun. rewrite Hl in Hrun.
  run_script Hrun. rewrite Ha in Hrun.
  run_script Hrun. rewrite Hp in Hrun.
  injection Hrun as <- <-. simpl.
  split; [reflexivity|]. exists (round2 acc).
  split; [eapply round2_in_unit, accuracy_score_in_unit; exact Ha|].
  rewrite <- ?app_assoc. reflexivity.
Qed.


End ClassifyStops.

Lemma classify_fit_fails_witness :
  fst (classify stubborn "Random Forest Results"
         (RandomForestClassifier 100 1 (PyStr "False") (-1))
         ten_x_train ten_x_test ten_y_train ten_y_test class_names
         ["ROC Curve"] ten_split)
    = Err (ValueError "Invalid parameter") /\
  log (snd (classify stubborn "Random Forest Results"
              (RandomForestClassifier 100 1 (PyStr "False") (-1))
              ten_x_train ten_x_test ten_y_train ten_y_test class_names
              ["ROC Curve"] ten_split))
    = log ten_split ++
      [Subheader "Random Forest Results";
       Construct (RandomForestClassifier 100 1 (PyStr "False") (-1))].
Proof.
  apply (classify_fit_fails stubborn "Random Forest Results"
           (RandomForestClassifier 100 1 (PyStr "False") (-1))
           ten_x_train ten_x_test ten_y_train ten_y_test class_names
           ["ROC Curve"] ten_split "Invalid parameter").
  reflexivity.
Defined.

Lemma classify_precision_fails_witness :
  let est := LogisticRegression (Qmake 1 1) 100 in
  let pred := map VInt [0; 1; 2]%Z in
  fst (classify parrot "Logistic Regression Results" est
         ten_x_train ten_x_test ten_y_train three_classes class_names
         [] ten_split)
    = Err (ValueError "Target is multiclass but average='binary'") /\
  exists shown,
    in_unit shown /\
    log (snd (classify parrot "Logistic Regression Results" est
                ten_x_train ten_x_test ten_y_train three_classes class_names
                [] ten_split))
    = log ten_split ++
      [Subheader "Logistic Regression Results"; Construct est; Fit est;
       Write "Accuracy: " shown;
       PrecisionScore (s_values three_classes) pred class_names].
Proof.
  intros est pred.
  apply (classify_precision_fails parrot "Logistic Regression Results" est
           ten_x_train ten_x_test ten_y_train three_classes class_names
           [] ten_split (fun _ => pred) (Qmake 3 3)
           (ValueError "Target is multiclass but average='binary'"));
    reflexivity.
Defined.


(** ** A run without a press of Classify *)

Section Browsing.

Variable permutation : nat -> list nat.

Hypothesis permutation_spec :
  forall n, Permutation (permutation n) (seq 0 n).

Variable learn :
  Estimator -> DataFrame -> Series -> string + (DataFrame -> list value).

Lemma main_browsing (ui : session) (w : world) (raw : DataFrame) :
  load_data_cache w = [] ->
  split_cache_sound permutation w ->
  file w = Some raw ->
  NoDup (column_names raw) ->
  Forall (fun nc => uniform (snd nc) = true) (columns raw) ->
  well_formed raw ->
  In "type" (column_names raw) ->
  2 <= len raw ->
  classify_pressed ui = false ->
  fst (main permutation learn ui w) = Ok tt /\
  exists enc,
    encode_columns raw = Ok enc /\
    (show_raw_checked ui = true ->
     exists t,
       log (snd (main permutation learn ui w)) =
         t ++ [Subheader "Mushroom Data Set for Classification";
               WriteFrame enc]).
Proof.
  intros Hc Hs Hf Hnd Hu Hwf Hty Hn Hp.
  destruct (load_data_total w raw Hc Hf Hnd Hu) as [enc Henc].
  pose proof Henc as Henc'.
  rewrite (load_data_miss w raw Hc Hf) in Henc'.
  destruct (encode_columns raw) as [enc0|] eqn:He; [|discriminate].
  simpl in Henc'. injection Henc' as ->.
  destruct (encode_columns_Ok raw enc Hnd He) as [Hi Hall].
  assert (Hwf' : well_formed enc).
  { pose proof (Forall2_encoded_lengths _ _ Hall) as Hlen.
    unfold well_formed, len in *. rewrite Hi.
    rewrite <- (Forall_map (fun nc : string * list value => length (snd nc))
                  (fun n => n = length (index raw))) in *.
    rewrite Hlen. exact Hwf. }
  assert (Hty' : In "type" (column_names enc)).
  { unfold column_names in *.
    rewrite (Forall2_encoded_names _ _ Hall). exact Hty. }
  assert (Hn' : 2 <= len enc) by (unfold len in *; rewrite Hi; exact Hn).
  destruct (split_body_total permutation permutation_spec enc Hwf' Hty' Hn')
    as (parts & _ & Hsplit).
  assert (Hrun : exists wf,
            main permutation learn ui w = (Ok tt, wf) /\
            (show_raw_checked ui = true ->
             exists t,
               log wf = t ++ [Subheader "Mushroom Data Set for Classification";
                              WriteFrame enc])).
  { main_prologue.
    match goal with |- context [load_data ?w0] => set (W0 := w0) end.
    pose proof (load_data_indep w W0 eq_refl eq_refl) as Hfst.
    destruct (load_data_effect W0) as (t & _ & _ & _ & Hsc & _).
    destruct (load_data W0) as [r1 w1] eqn:H1. simpl in Hfst, Hsc.
    rewrite Henc in Hfst. subst r1.
    rewrite bind_eq.
    assert (Hs1 : split_cache_sound permutation w1).
    { intros d p. rewrite Hsc. apply Hs. }
    specialize (Hsplit w1 Hs1).
    destruct (split permutation enc w1) as [r2 w2]. simpl in Hsplit.
    subst r2.
    destruct parts as [[[xtr xte] ytr] yte].
    unfold svm_branch, logistic_branch, forest_branch. rewrite Hp.
    destruct (String.eqb _ "Support Vector Machine (SVM)");
      destruct (String.eqb _ "Logistic Regression");
      destruct (String.eqb _ "Random Forest");
      destruct (show_raw_checked ui);
      (eexists; split; [reflexivity|]; intros Hraw;
       first [discriminate Hraw
             | simpl; eexists; rewrite <- app_assoc; reflexivity]). }
  destruct Hrun as (wf & -> & Hlog).
  split; [reflexivity|].
  exists enc. split; [reflexivity | exact Hlog].
Qed.

(** X20.  With nothing cached for [load_data] (neither in memory nor
    persisted) and an honest memo table of [split], on a file whose table
    has distinct column names, uniformly typed columns with one cell
    per row, a "type" column and at least two rows, a run of [main]
    without a press of Classify returns normally, whatever else is
    selected: loading, encoding and splitting all succeed. *)
Theorem main_browsing_returns (ui : session) (w : world) (raw : DataFrame) :
  load_data_cache w = [] ->
  split_cache_sound permutation w ->
  file w = Some raw ->
  NoDup (column_names raw) ->
  Forall (fun nc => uniform (snd nc) = true) (columns raw) ->
  well_formed raw ->
  In "type" (column_names raw) ->
  2 <= len raw ->
  classify_pressed ui = false ->
  fst (main permutation learn ui w) = Ok tt.
Proof.
  intros Hc Hs Hf Hnd Hu Hwf Hty Hn Hp.
  apply (main_browsing ui w raw); assumption.
Qed.

(** X21.  Under the same conditions (nothing cached for [load_data],
    an honest memo table of [split], a well-formed file, no press of
    Classify) and with "Show raw data" ticked, the run ends by
    displaying, under the header "Mushroom Data Set for Classification",
    the encoding of the file's table: the integer codes, not the letters
    of the file. *)
Theorem show_raw_data_shows_codes (ui : session) (w : world)
  (raw : DataFrame) :
  load_data_cache w = [] ->
  split_cache_sound permutation w ->
  file w = Some raw ->
  NoDup (column_names raw) ->
  Forall (fun nc => uniform (snd nc) = true) (columns raw) ->
  well_formed raw ->
  In "type" (column_names raw) ->
  2 <= len raw ->
  classify_pressed ui = false ->
  show_raw_checked ui = true ->
  exists enc t,
    encode_columns raw = Ok enc /\
    log (snd (main permutation learn ui w)) =
      t ++ [Subheader "Mushroom Data Set for Classification";
            WriteFrame enc] /\
    forall name col, In (name, col) (columns enc) ->
      Forall (fun v => is_int v = true) col.
Proof.
  intros Hc Hs Hf Hnd Hu Hwf Hty Hn Hp Hraw.
  destruct (main_browsing ui w raw Hc Hs Hf Hnd Hu Hwf Hty Hn Hp)
    as (_ & enc & He & Hlog).
  destruct (Hlog Hraw) as [t Ht].
  exists enc, t. split; [exact He|]. split; [exact Ht|].
  intros name col Hin.
  destruct (encode_columns_Ok raw enc Hnd He) as [_ Hall].
  destruct (Forall2_In_r _ _ _ _ Hall Hin) as ([n rc] & _ & _ & Hft).
  eapply fit_transform_ints. exact Hft.
Qed.

End Browsing.

Lemma ten_mushrooms_uniform :
  Forall (fun nc => uniform (snd nc) = true) (columns ten_mushrooms).
Proof. repeat constructor. Qed.

Lemma ten_mushrooms_well_formed : well_formed ten_mushrooms.
Proof. unfold well_formed. repeat constructor. Qed.

Lemma main_browsing_returns_witness :
  fst (main reversed by_odor browsing_session (fresh (Some ten_mushrooms)))
  = Ok tt.
Proof.
  apply (main_browsing_returns reversed reversed_spec by_odor
           browsing_session (fresh (Some ten_mushrooms)) ten_mushrooms).
  - reflexivity.
  - apply fresh_split_cache_sound. reflexivity.
  - reflexivity.
  - exact ten_mushrooms_names.
  - exact ten_mushrooms_uniform.
  - exact ten_mushrooms_well_formed.
  - simpl. auto.
  - unfold len. simpl. lia.
  - reflexivity.
Defined.

Lemma show_raw_data_shows_codes_witness :
  exists enc t,
    encode_columns ten_mushrooms = Ok enc /\
    log (snd (main reversed by_odor browsing_session
                (fresh (Some ten_mushrooms)))) =
      t ++ [Subheader "Mushroom Data Set for Classification";
            WriteFrame enc] /\
    forall name col, In (name, col) (columns enc) ->
      Forall (fun v => is_int v = true) col.
Proof.
  apply (show_raw_data_shows_codes reversed reversed_spec by_odor
           browsing_session (fresh (Some ten_mushrooms)) ten_mushrooms).
  - reflexivity.
  - apply fresh_split_cache_sound. reflexivity.
  - reflexivity.
  - exact ten_mushrooms_names.
  - exact ten_mushrooms_uniform.
  - exact ten_mushrooms_well_formed.
  - simpl. auto.
  - unfold len. simpl. lia.
  - reflexivity.
  - reflexivity.
Defined.
